(** * Q-Audit: the report parser, the statistics engine and the resimulation
    transform, embedded from [src/utils/parser.ts], [src/utils/statistics.ts]
    and [src/components/Simulation.tsx].

    JavaScript values are modelled as the code has them:
    - a [number] is an IEEE 754 binary64 value, Rocq's primitive [float];
    - a [string] is a sequence of UTF-16 code units, [list N];
    - [undefined] is [None];
    - a thrown [TypeError] or [RangeError] is the [Throw] completion of a
      small error monad. *)

From Stdlib Require Import ZArith NArith List Bool Lia String Ascii QArith Qfield.
From Stdlib Require Import Permutation.
From Stdlib Require Import Floats.
Import ListNotations.

Close Scope Q_scope.
Set Warnings "-inexact-float".

(* ===================================================================== *)
(** * JavaScript strings *)
(* ===================================================================== *)

Module JsString.

(** A string is its sequence of UTF-16 code units. *)
Definition jsstring := list N.

(** Literals of the source are ASCII; [str] embeds them. *)
Definition str (s : string) : jsstring :=
  map N_of_ascii (list_ascii_of_string s).

Definition jsstring_eqb (a b : jsstring) : bool :=
  if list_eq_dec N.eq_dec a b then true else false.

(** [WhiteSpace] and [LineTerminator] of ECMAScript: what [\s] matches and
    what [trim] removes. *)
Definition is_ws (c : N) : bool :=
  ((9 <=? c) && (c <=? 13) || (c =? 32) || (c =? 160) || (c =? 5760)
   || (8192 <=? c) && (c <=? 8202) || (c =? 8232) || (c =? 8233)
   || (c =? 8239) || (c =? 8287) || (c =? 12288) || (c =? 65279))%N.

Definition not_ws (c : N) : bool := negb (is_ws c).

Fixpoint trimStart (s : jsstring) : jsstring :=
  match s with
  | c :: r => if is_ws c then trimStart r else s
  | [] => []
  end.

Definition trimEnd (s : jsstring) : jsstring := rev (trimStart (rev s)).

(** [s.trim()] *)
Definition trim (s : jsstring) : jsstring := trimEnd (trimStart s).

(** [s.replace(/\s/g, '')] *)
Definition remove_ws (s : jsstring) : jsstring := filter not_ws s.

(** [s.startsWith(p)] *)
Fixpoint startsWith (p s : jsstring) : bool :=
  match p, s with
  | [], _ => true
  | a :: p', b :: s' => (a =? b)%N && startsWith p' s'
  | _ :: _, [] => false
  end.

(** [s.includes(p)] *)
Fixpoint includes (p s : jsstring) : bool :=
  startsWith p s ||
  match s with
  | [] => false
  | _ :: s' => includes p s'
  end.

(** [s.replace(a, b)] with one-character string arguments: only the first
    occurrence is replaced. *)
Fixpoint replace_first (a b : N) (s : jsstring) : jsstring :=
  match s with
  | [] => []
  | c :: r => if (c =? a)%N then b :: r else c :: replace_first a b r
  end.

(** [s.replace(/a/g, '')] for a single character. *)
Definition remove_all (a : N) (s : jsstring) : jsstring :=
  filter (fun c => negb (c =? a)%N) s.

(** [s.replace(/a/g, b)] for single characters. *)
Definition replace_all (a b : N) (s : jsstring) : jsstring :=
  map (fun c => if (c =? a)%N then b else c) s.

Definition is_digit (c : N) : bool := ((48 <=? c) && (c <=? 57))%N.

Definition digit_val (c : N) : Z := Z.of_N (c - 48).

(** The longest prefix of decimal digits, and the rest. *)
Fixpoint span_digits (s : jsstring) : jsstring * jsstring :=
  match s with
  | c :: r =>
      if is_digit c then let '(d, t) := span_digits r in (c :: d, t)
      else ([], s)
  | [] => ([], [])
  end.

(** The value of a digit string read in base ten. *)
Definition digits_val (d : jsstring) : Z :=
  fold_left (fun acc c => 10 * acc + digit_val c)%Z d 0%Z.

(** The decimal digits of a natural number, most significant first;
    [fuel] bounds the number of digits. *)
Fixpoint digits_of_fuel (fuel : nat) (n : Z) (acc : jsstring) : jsstring :=
  match fuel with
  | O => acc
  | S f =>
      let acc' := (48 + Z.to_N (n mod 10))%N :: acc in
      if (n <? 10)%Z then acc' else digits_of_fuel f (n / 10)%Z acc'
  end.

Definition digits_of (n : Z) : jsstring :=
  digits_of_fuel (S (Z.to_nat (Z.log2 n))) n [].

(** ASCII case folding, the part of [toLowerCase] the literals of the
    source can observe. *)
Definition ascii_lower (c : N) : N :=
  if ((65 <=? c) && (c <=? 90))%N then (c + 32)%N else c.

Definition toLowerCase_ascii (s : jsstring) : jsstring := map ascii_lower s.

(** [/^\d{4}\.\d{2}\.\d{2}/.test(s)] *)
Definition matches_date_prefix (s : jsstring) : bool :=
  match s with
  | y1 :: y2 :: y3 :: y4 :: p1 :: m1 :: m2 :: p2 :: d1 :: d2 :: _ =>
      is_digit y1 && is_digit y2 && is_digit y3 && is_digit y4
      && (p1 =? 46)%N && is_digit m1 && is_digit m2
      && (p2 =? 46)%N && is_digit d1 && is_digit d2
  | _ => false
  end.

End JsString.

Import JsString.

(* ===================================================================== *)
(** * JavaScript numbers *)
(* ===================================================================== *)

Module JsNumber.

Definition number := float.
Bind Scope float_scope with number.

Definition isNaN (x : number) : bool := negb (x =? x)%float.

(** [isFinite(x)] *)
Definition isFinite (x : number) : bool :=
  negb (isNaN x) && negb (is_infinity x).

(** [ToBoolean] on a number: [NaN], [+0] and [-0] are falsy. *)
Definition truthy (x : number) : bool := negb (isNaN x || (x =? 0)%float).

(** [x || d] on numbers *)
Definition or_else (x d : number) : number := if truthy x then x else d.

(** [x ?? d] on a possibly undefined number *)
Definition nullish (x : option number) (d : number) : number :=
  match x with Some v => v | None => d end.

(** [Math.max(a, b)], [Math.min(a, b)]: [NaN] if either is, and [+0] is
    larger than [-0]. *)
Definition Math_max (a b : number) : number :=
  if isNaN a || isNaN b then nan
  else if (a <? b)%float then b
  else if (b <? a)%float then a
  else if get_sign a then b else a.

Definition Math_min (a b : number) : number :=
  if isNaN a || isNaN b then nan
  else if (a <? b)%float then a
  else if (b <? a)%float then b
  else if get_sign a then a else b.

Definition Math_abs (x : number) : number := abs x.

(** The number nearest to the integer [z] (ties to even). *)
Definition of_Z (z : Z) : number :=
  SF2Prim (binary_normalize prec emax z 0 false).

(** The number nearest to [(-1)^s * m / 10^k], [m > 0]. Both operands of
    the division are handed to the IEEE division as exact integers, so
    there is one rounding. *)
Definition of_decimal_fraction (s : bool) (m : positive) (k : Z) : number :=
  SF2Prim (SFdiv prec emax (S754_finite s m 0)
                            (S754_finite false (Z.to_pos (10 ^ k)) 0)).

(** The number nearest to [(-1)^s * m * 10^e]. Exponents beyond the range
    of binary64 are cut off before any power is computed. *)
Definition of_decimal (s : bool) (m : Z) (e : Z) : number :=
  match m with
  | Zpos p =>
      let nd := Z.of_nat (List.length (digits_of m)) in
      if (0 <=? e)%Z then
        if (400 <? nd + e)%Z then (if s then neg_infinity else infinity)
        else let v := of_Z (m * 10 ^ e) in if s then (- v)%float else v
      else if (nd + e <? -400)%Z then (if s then neg_zero else zero)
      else of_decimal_fraction s p (- e)
  | _ => if s then neg_zero else zero
  end.

(** The optional sign of a numeric literal. *)
Definition read_sign (s : jsstring) : bool * jsstring :=
  match s with
  | 45%N :: r => (true, r)
  | 43%N :: r => (false, r)
  | _ => (false, s)
  end.

(** [ExponentPart]: [e] or [E], an optional sign and at least one digit;
    a malformed exponent is not part of the literal. *)
Definition read_exponent (s : jsstring) : Z :=
  match s with
  | c :: r =>
      if ((c =? 101) || (c =? 69))%N then
        let '(neg, r') := read_sign r in
        let '(d, _) := span_digits r' in
        match d with
        | [] => 0%Z
        | _ => if neg then (- digits_val d)%Z else digits_val d
        end
      else 0%Z
  | [] => 0%Z
  end.

(** [parseFloat(s)]: leading white space is skipped, then the longest
    prefix that is a [StrDecimalLiteral] is read; [NaN] if there is none. *)
Definition parseFloat (s : jsstring) : number :=
  let '(neg, r) := read_sign (trimStart s) in
  if startsWith (str "Infinity") r then
    (if neg then neg_infinity else infinity)
  else
    let '(ip, r1) := span_digits r in
    let '(fp, r2) :=
      match r1 with
      | 46%N :: r1' =>
          let '(fp, r2) := span_digits r1' in
          match ip, fp with
          | [], [] => ([], r1)
          | _, _ => (fp, r2)
          end
      | _ => ([], r1)
      end in
    match ip, fp with
    | [], [] => nan
    | _, _ =>
        of_decimal neg (digits_val (ip ++ fp))
                   (read_exponent r2 - Z.of_nat (List.length fp))
    end.

(** ** Number to string *)

(** A digit string with a decimal point before its last [f] digits, padded
    with leading zeros to at least one integer digit. *)
Definition fixed_digits (n : Z) (f : nat) : jsstring :=
  let ds := digits_of n in
  let ds := repeat 48%N (S f - List.length ds) ++ ds in
  let k := (List.length ds - f)%nat in
  match f with
  | O => ds
  | _ => firstn k ds ++ 46%N :: skipn k ds
  end.

(** [Number::toString] of an integer [X >= 10^21], the value of the number
    [x]: the shortest digit string [s] of [k] digits such that
    [s * 10^(n-k)] reads back as [x], the closest to [X] if there are two,
    in exponential notation. *)
Fixpoint shortest_digits (fuel : nat) (k : nat) (x : number) (X : Z) (nd : nat)
  : jsstring * Z :=
  let p := (10 ^ Z.of_nat (nd - k))%Z in
  let lo := (X / p)%Z in
  let hi := (lo + 1)%Z in
  let ok c := Leibniz.eqb (of_Z (c * p)) x in
  let out c :=
    if (c =? 10 ^ Z.of_nat k)%Z then ([49%N], Z.of_nat nd)
    else (digits_of c, (Z.of_nat nd - 1)%Z) in
  match fuel with
  | O => out lo
  | S fuel' =>
      match ok lo, ok hi with
      | true, false => out lo
      | false, true => out hi
      | true, true =>
          match (X - lo * p ?= hi * p - X)%Z with
          | Lt => out lo
          | Gt => out hi
          | Eq => if Z.even lo then out lo else out hi
          end
      | false, false => shortest_digits fuel' (S k) x X nd
      end
  end.

Definition toString_exponential (x : number) (X : Z) : jsstring :=
  let nd := List.length (digits_of X) in
  let '(ds, e) := shortest_digits 17 1 x X nd in
  match ds with
  | [] => []
  | d :: [] => d :: str "e+" ++ digits_of e
  | d :: rest => d :: 46%N :: rest ++ str "e+" ++ digits_of e
  end.

(** [x.toFixed(f)] *)
Definition toFixed (x : number) (f : nat) : jsstring :=
  match Prim2SF x with
  | S754_nan => str "NaN"
  | S754_infinity s => if s then str "-Infinity" else str "Infinity"
  | S754_zero _ => fixed_digits 0 f
  | S754_finite s m e =>
      let sign := if s then [45%N] else [] in
      let big :=
        if (0 <=? e)%Z then (10 ^ 21 <=? Zpos m * 2 ^ e)%Z
        else (10 ^ 21 * 2 ^ (- e) <=? Zpos m)%Z in
      if big then sign ++ toString_exponential (abs x) (Zpos m * 2 ^ e)
      else
        let n :=
          if (0 <=? e)%Z then (Zpos m * 10 ^ Z.of_nat f * 2 ^ e)%Z
          else ((2 * Zpos m * 10 ^ Z.of_nat f + 2 ^ (- e)) / (2 * 2 ^ (- e)))%Z in
        sign ++ fixed_digits n f
  end.

(** [String(n)] of a count. *)
Definition count_toString (n : nat) : jsstring := digits_of (Z.of_nat n).

(** The number whose value is a count. *)
Definition of_count (n : nat) : number := of_Z (Z.of_nat n).

(** The value of a digit in radix 16, for [parseInt]. *)
Definition hex_val (c : N) : option Z :=
  if is_digit c then Some (digit_val c)
  else if ((97 <=? c) && (c <=? 102))%N then Some (Z.of_N (c - 87))
  else if ((65 <=? c) && (c <=? 70))%N then Some (Z.of_N (c - 55))
  else None.

Fixpoint read_radix (radix : Z) (s : jsstring) (acc : option Z) : option Z :=
  match s with
  | c :: r =>
      match hex_val c with
      | Some d =>
          if (d <? radix)%Z then
            read_radix radix r (Some (radix * match acc with Some a => a | None => 0 end + d)%Z)
          else acc
      | None => acc
      end
  | [] => acc
  end.

(** [parseInt(s)] with no radix argument. *)
Definition parseInt (s : jsstring) : number :=
  let '(neg, r) := read_sign (trimStart s) in
  let '(radix, r) :=
    match r with
    | 48%N :: x :: r' => if ((x =? 120) || (x =? 88))%N then (16, r') else (10, r)
    | _ => (10, r)
    end%Z in
  match read_radix radix r None with
  | None => nan
  | Some 0%Z => if neg then neg_zero else zero
  | Some v => of_Z (if neg then - v else v)
  end.

(** [SameValueZero]: equal as numbers, with [NaN] equal to itself and
    the two zeros equal. *)
Definition same_number (a b : number) : bool :=
  (isNaN a && isNaN b) || (a =? b)%float.

End JsNumber.

Import JsNumber.

(* ===================================================================== *)
(** * Completions: a call returns normally or throws *)
(* ===================================================================== *)

Inductive JsError := TypeError | RangeError.

Inductive completion (A : Type) : Type :=
| Normal (a : A)
| Throw (e : JsError).

Arguments Normal {A} a.
Arguments Throw {A} e.

Definition bind {A B : Type} (c : completion A) (k : A -> completion B)
  : completion B :=
  match c with
  | Normal a => k a
  | Throw e => Throw e
  end.

Notation "x <- c ;; k" := (bind c (fun x => k))
  (at level 61, c at next level, right associativity).

(** [Array.prototype.findIndex]: the index of the first element that
    satisfies [p], [-1] if there is none. *)
Fixpoint findIndex {A : Type} (p : A -> bool) (l : list A) : Z :=
  match l with
  | [] => (-1)%Z
  | x :: r =>
      if p x then 0%Z
      else let i := findIndex p r in if (i =? -1)%Z then (-1)%Z else (i + 1)%Z
  end.

(** [l[i]]: [undefined] outside of the array. *)
Definition item {A : Type} (l : list A) (i : Z) : option A :=
  if (i <? 0)%Z then None else nth_error l (Z.to_nat i).

(* ===================================================================== *)
(** * The report parser, [src/utils/parser.ts] *)
(* ===================================================================== *)

Module Parser.

(** [interface DataPoint]. [date] holds the time value of the [Date]
    object: an integral number of milliseconds, or [None] for the [NaN] of
    an invalid date. The last two fields are those the resimulation adds to
    a copy of the record. *)
Record DataPoint := {
  time : jsstring;
  balance : number;
  profit : number;
  volume : number;
  date : option Z;
  type : option jsstring;
  swap : option number;
  commission : option number;
  rawProfit : option number;
  simulatedProfit : option number;
  simulatedBalance : option number
}.

(** [interface ReportMeta]; a field that is not set is [None]. *)
Record ReportMeta := {
  totalNetProfit : option jsstring;
  grossProfit : option jsstring;
  grossLoss : option jsstring;
  profitFactor : option jsstring;
  sharpeRatio : option jsstring;
  balanceDDMax : option jsstring;
  equityDDMax : option jsstring;
  balanceDDRel : option jsstring;
  equityDDRel : option jsstring;
  totalTrades : number;
  shortTrades : option jsstring;
  longTrades : option jsstring;
  profitTrades : option jsstring;
  lossTrades : option jsstring;
  largestProfit : option jsstring;
  largestLoss : option jsstring;
  largestProfitLoss : option jsstring;
  avgProfit : option jsstring;
  avgLoss : option jsstring;
  maxConsecWins_usd : option jsstring;
  maxConsecLosses_usd : option jsstring;
  maxConsecProfitCount : option jsstring;
  maxConsecLossCount : option jsstring;
  avgConsecWins : option jsstring;
  avgConsecLosses : option jsstring;
  fixedLotSize : option number;
  period : option jsstring
}.

(** [interface ParsedResult] *)
Record ParsedResult := {
  data : list DataPoint;
  initialDeposit : number;
  reportMeta : ReportMeta
}.

(** What the parser reads of the document [DOMParser] built: of every
    [tr], in document order, its [textContent], the [textContent] of its
    [td] descendants and of its [th, td] descendants. *)
Record Row := {
  tr_text : jsstring;
  tr_td : list jsstring;
  tr_th_td : list jsstring
}.

(** [doc_td] is [doc.querySelectorAll('td')], [doc_tr] is
    [doc.querySelectorAll('tr')]. *)
Record Document := {
  doc_td : list jsstring;
  doc_tr : list Row
}.

(** [getVal], over the [cells] of its closure. *)
Definition getVal (cells : list jsstring) (label : jsstring) : option jsstring :=
  let idx := findIndex (fun c => startsWith label (trim c)) cells in
  if negb (idx =? -1)%Z then option_map trim (item cells (idx + 1))
  else Some (str "0").

(** [s || d] on a possibly undefined string: the empty string is falsy. *)
Definition or_string (s : option jsstring) (d : jsstring) : jsstring :=
  match s with
  | Some ((_ :: _) as v) => v
  | _ => d
  end.

(** The resolved column positions. *)
Record Columns := {
  volIdx : Z;
  profitIdx : Z;
  balIdx : Z;
  timeIdx : Z;
  typeIdx : Z;
  swapIdx : Z;
  commIdx : Z
}.

Definition default_columns : Columns :=
  {| volIdx := 5; profitIdx := 10; balIdx := 11; timeIdx := 0;
     typeIdx := 2; swapIdx := -1; commIdx := -1 |}.

(** [.replace(/[\u2013\u2014\u2212]/g, '-')]: en dash, em dash and minus
    sign become a hyphen. *)
Definition is_dash (c : N) : bool := ((c =? 8211) || (c =? 8212) || (c =? 8722))%N.

Definition to_hyphen (c : N) : N := if is_dash c then 45%N else c.

Definition normalize_minus (s : jsstring) : jsstring := map to_hyphen s.

(** The comma is a decimal separator when there is a comma and no dot, a
    thousands separator otherwise. *)
Definition decimal_comma (clean : jsstring) : jsstring :=
  if includes [44%N] clean && negb (includes [46%N] clean)
  then replace_first 44 46 clean
  else remove_all 44 clean.

(** [cleanVal] *)
Definition cleanVal (txt : option jsstring) : number :=
  match txt with
  | None | Some [] => 0%float
  | Some txt =>
      let clean := normalize_minus (remove_ws (trim txt)) in
      let clean := decimal_comma clean in
      let val := parseFloat clean in
      if isFinite val then val else 0%float
  end.

(** [c[i].textContent]: reading a property of [undefined] throws. *)
Definition textContent_at (c : list jsstring) (i : Z) : completion jsstring :=
  match item c i with
  | Some t => Normal t
  | None => Throw TypeError
  end.

(** [Math.max(volIdx, profitIdx, balIdx, typeIdx)] on the integer indices. *)
Definition max_index (cols : Columns) : Z :=
  Z.max (Z.max (Z.max (volIdx cols) (profitIdx cols)) (balIdx cols)) (typeIdx cols).

(** The time values that order two deals: [a.date.getTime() -
    b.date.getTime()], whose sign is the sign of the exact difference and
    which is [NaN] when a date is invalid. *)
Definition compare_dates (a b : DataPoint) : option Z :=
  match date a, date b with
  | Some x, Some y => Some (x - y)%Z
  | _, _ => None
  end.

(** [Array.prototype.sort] with a comparison function, as a stable
    insertion sort: [x] goes after [y] when the comparison is positive; a
    [NaN] comparison counts as [+0]. *)
Section Sort.
Variable A : Type.
Variable cmp : A -> A -> option Z.

Definition goes_after (x y : A) : bool :=
  match cmp x y with
  | Some v => (0 <? v)%Z
  | None => false
  end.

Fixpoint insert_sorted (x : A) (l : list A) : list A :=
  match l with
  | [] => [x]
  | y :: r => if goes_after x y then y :: insert_sorted x r else x :: l
  end.

Definition sort (l : list A) : list A := fold_right insert_sorted [] l.
End Sort.

Arguments goes_after {A} cmp x y.
Arguments insert_sorted {A} cmp x l.
Arguments sort {A} cmp l.

Section Host.
(** Two functions of the host: Unicode case folding and the parsing of a
    date string by [new Date(string)], which yields a time value or an
    invalid date. *)
Variable toLowerCase : jsstring -> jsstring.
Variable Date_parse : jsstring -> option Z.

(** [findIdx], over the [hCells] of its closure. *)
Definition findIdx (hCells : list jsstring) (keywords : list jsstring) : Z :=
  findIndex (fun h => existsb (fun k => jsstring_eqb h k || includes k h) keywords)
            hCells.

(** [if (v !== -1) volIdx = v], and so on for each column. *)
Definition override (found current : Z) : Z :=
  if negb (found =? -1)%Z then found else current.

(** Dynamic column detection. *)
Definition detect_columns (allRows : list Row) : Columns :=
  let headerRow :=
    find (fun row =>
            let text := toLowerCase (tr_text row) in
            includes (str "time") text && includes (str "profit") text)
         allRows in
  match headerRow with
  | Some headerRow =>
      let hCells := map (fun c => toLowerCase (trim c)) (tr_th_td headerRow) in
      let v := findIdx hCells (map str ["volume"; "size"; "lots"; "amount"; "qty"]%string) in
      let p := findIdx hCells (map str ["profit"; "gain"]%string) in
      let b := findIdx hCells (map str ["balance"]%string) in
      let t := findIdx hCells (map str ["time"; "date"]%string) in
      let ty := findIdx hCells (map str ["type"; "direction"]%string) in
      let s := findIdx hCells (map str ["swap"]%string) in
      let cm := findIdx hCells (map str ["commission"; "taxes"; "fee"]%string) in
      {| volIdx := override v 5; profitIdx := override p 10;
         balIdx := override b 11; timeIdx := override t 0;
         typeIdx := override ty 2; swapIdx := override s (-1);
         commIdx := override cm (-1) |}
  | None => default_columns
  end.

(** The body of [allRows.forEach]: the deal the row contributes, if any. *)
Definition process_row (cols : Columns) (row : Row)
  : completion (option DataPoint) :=
  let c := tr_td row in
  if (max_index cols <? Z.of_nat (List.length c))%Z then
    t <- textContent_at c (timeIdx cols) ;;
    let timeStr := trim t in
    match timeStr with
    | [] => Normal None
    | _ :: _ =>
        if matches_date_prefix timeStr then
          vt <- textContent_at c (volIdx cols) ;;
          let volume := cleanVal (Some vt) in
          pt <- textContent_at c (profitIdx cols) ;;
          let rawProfit := cleanVal (Some pt) in
          bt <- textContent_at c (balIdx cols) ;;
          let balance := cleanVal (Some bt) in
          tt <- textContent_at c (typeIdx cols) ;;
          let type := toLowerCase (trim tt) in
          swap <- (if negb (swapIdx cols =? -1)%Z
                   then st <- textContent_at c (swapIdx cols) ;; Normal (cleanVal (Some st))
                   else Normal 0%float) ;;
          commission <- (if negb (commIdx cols =? -1)%Z
                         then ct <- textContent_at c (commIdx cols) ;; Normal (cleanVal (Some ct))
                         else Normal 0%float) ;;
          let profit := (rawProfit + swap + commission)%float in
          Normal (Some
            {| time := timeStr; balance := balance; profit := profit;
               volume := volume;
               date := Date_parse (replace_all 46 45 timeStr);
               type := Some type; swap := Some swap;
               commission := Some commission; rawProfit := Some rawProfit;
               simulatedProfit := None; simulatedBalance := None |})
        else Normal None
    end
  else Normal None.

(** [allRows.forEach(...)]: the deals pushed, in row order; the first
    exception ends the loop. *)
Fixpoint collect_deals (cols : Columns) (rows : list Row) (deals : list DataPoint)
  : completion (list DataPoint) :=
  match rows with
  | [] => Normal deals
  | row :: rest =>
      d <- process_row cols row ;;
      collect_deals cols rest
        (match d with Some d => deals ++ [d] | None => deals end)
  end.

(** The fixed-lot check, on the deals as [sort] left them. *)
Definition fixed_lot (deals : list DataPoint) : option number :=
  let trades := filter (fun d => (0 <? volume d)%float) deals in
  match trades with
  | first :: _ =>
      let firstVol := volume first in
      if forallb (fun d => (volume d =? firstVol)%float) trades
      then Some firstVol else None
  | [] => None
  end.

(** [processData], from the parsed document on. [deals.sort] sorts in
    place, so [data] and [deals] are the same array afterwards. The sum
    the source computes with [data.reduce] is discarded there and has no
    counterpart here. *)
Definition processData (doc : Document) : completion ParsedResult :=
  let cells := doc_td doc in
  let getVal := getVal cells in
  let depositIdx := findIndex (fun td => includes (str "Initial Deposit:") td) cells in
  let deposit :=
    or_else (parseFloat (or_string (option_map remove_ws (item cells (depositIdx + 1)))
                                   (str "0")))
            0%float in
  let allRows := doc_tr doc in
  let cols := detect_columns allRows in
  deals <- collect_deals cols allRows [] ;;
  let data :=
    match deals with
    | [] => []
    | _ :: _ => sort compare_dates deals
    end in
  let meta :=
    {| totalNetProfit := getVal (str "Total Net Profit:");
       grossProfit := getVal (str "Gross Profit:");
       grossLoss := getVal (str "Gross Loss:");
       profitFactor := getVal (str "Profit Factor:");
       sharpeRatio := getVal (str "Sharpe Ratio:");
       balanceDDMax := getVal (str "Balance Drawdown Maximal:");
       equityDDMax := getVal (str "Equity Drawdown Maximal:");
       balanceDDRel := getVal (str "Balance Drawdown Relative:");
       equityDDRel := getVal (str "Equity Drawdown Relative:");
       totalTrades :=
         or_else (parseInt (or_string (getVal (str "Total Trades:")) (str "0"))) 0%float;
       shortTrades := getVal (str "Short Trades (won %):");
       longTrades := getVal (str "Long Trades (won %):");
       profitTrades := getVal (str "Profit Trades (% of total):");
       lossTrades := getVal (str "Loss Trades (% of total):");
       largestProfit := getVal (str "Largest profit trade:");
       largestLoss := getVal (str "Largest loss trade:");
       largestProfitLoss := None;
       avgProfit := getVal (str "Average profit trade:");
       avgLoss := getVal (str "Average loss trade:");
       maxConsecWins_usd := getVal (str "Maximum consecutive wins ($):");
       maxConsecLosses_usd := getVal (str "Maximum consecutive losses ($):");
       maxConsecProfitCount := getVal (str "Maximal consecutive profit (count):");
       maxConsecLossCount := getVal (str "Maximal consecutive loss (count):");
       avgConsecWins := getVal (str "Average consecutive wins:");
       avgConsecLosses := getVal (str "Average consecutive losses:");
       fixedLotSize := fixed_lot data;
       period := getVal (str "Period:") |} in
  Normal {| data := data; initialDeposit := deposit; reportMeta := meta |}.

End Host.

(** A reference host for examples: case folding on ASCII, and dates of the
    form [YYYY-MM-DD] optionally followed by a space or [T] and
    [HH:MM:SS], read as UTC; a month or a day out of range is an invalid
    date. *)
Definition two_digits (a b : N) : option Z :=
  if is_digit a && is_digit b then Some (10 * digit_val a + digit_val b)%Z else None.

(** Days from 1970-01-01 to the given civil date. *)
Definition days_from_civil (y m d : Z) : Z :=
  let y := (if m <=? 2 then y - 1 else y)%Z in
  let era := (y / 400)%Z in
  let yoe := (y - era * 400)%Z in
  let mp := ((m + 9) mod 12)%Z in
  let doy := ((153 * mp + 2) / 5 + d - 1)%Z in
  let doe := (yoe * 365 + yoe / 4 - yoe / 100 + doy)%Z in
  (era * 146097 + doe - 719468)%Z.

Definition days_in_month (y m : Z) : Z :=
  if (m =? 2)%Z then
    if ((y mod 4 =? 0) && (negb (y mod 100 =? 0) || (y mod 400 =? 0)))%Z then 29 else 28
  else if ((m =? 4) || (m =? 6) || (m =? 9) || (m =? 11))%Z then 30 else 31.

Definition Date_parse_utc (s : jsstring) : option Z :=
  match s with
  | y1 :: y2 :: y3 :: y4 :: 45%N :: m1 :: m2 :: 45%N :: d1 :: d2 :: rest =>
      match two_digits y1 y2, two_digits y3 y4, two_digits m1 m2, two_digits d1 d2 with
      | Some yh, Some yl, Some m, Some d =>
          let y := (100 * yh + yl)%Z in
          if ((1 <=? m) && (m <=? 12) && (1 <=? d) && (d <=? days_in_month y m))%Z then
            let day_ms := (days_from_civil y m d * 86400000)%Z in
            match rest with
            | [] => Some day_ms
            | sep :: h1 :: h2 :: 58%N :: n1 :: n2 :: 58%N :: s1 :: s2 :: [] =>
                if ((sep =? 32) || (sep =? 84))%N then
                  match two_digits h1 h2, two_digits n1 n2, two_digits s1 s2 with
                  | Some h, Some n, Some sec =>
                      if ((h <=? 23) && (n <=? 59) && (sec <=? 59))%Z
                      then Some (day_ms + ((h * 60 + n) * 60 + sec) * 1000)%Z
                      else None
                  | _, _, _ => None
                  end
                else None
            | _ => None
            end
          else None
      | _, _, _, _ => None
      end
  | _ => None
  end.

End Parser.

Import Parser.

(* ===================================================================== *)
(** * The statistics engine, [src/utils/statistics.ts] *)
(* ===================================================================== *)

Module Statistics.

(** The local variables of [calculateStats], grouped as the source
    comments group them. *)
Record Tally := {
  t_grossProfit : number;
  t_grossLoss : number;
  wins : nat;
  losses : nat;
  maxProfit : number;
  maxLoss : number;
  totalProfitSum : number;
  totalLossSum : number
}.

Record Streaks := {
  currentWins : nat;
  currentLosses : nat;
  maxConsecWinsCount : nat;
  maxConsecLossesCount : nat;
  maxConsecWins_d : number;
  maxConsecLosses_d : number;
  currentWin_d : number;
  currentLoss_d : number
}.

Record Drawdown := {
  peakBalance : number;
  maxDDVal : number;
  maxDDRel : number
}.

Record State := {
  tally : Tally;
  streaks : Streaks;
  drawdown : Drawdown;
  runningBalance : number
}.

Definition init (initialDeposit : number) : State :=
  {| tally := {| t_grossProfit := 0; t_grossLoss := 0; wins := 0; losses := 0;
                 maxProfit := 0; maxLoss := 0;
                 totalProfitSum := 0; totalLossSum := 0 |};
     streaks := {| currentWins := 0; currentLosses := 0;
                   maxConsecWinsCount := 0; maxConsecLossesCount := 0;
                   maxConsecWins_d := 0; maxConsecLosses_d := 0;
                   currentWin_d := 0; currentLoss_d := 0 |};
     drawdown := {| peakBalance := initialDeposit; maxDDVal := 0; maxDDRel := 0 |};
     runningBalance := initialDeposit |}.

(** A trade with [profit >= 0]. *)
Definition win (profit : number) (t : Tally) (s : Streaks) : Tally * Streaks :=
  ({| t_grossProfit := t_grossProfit t + profit;
      t_grossLoss := t_grossLoss t;
      wins := S (wins t);
      losses := losses t;
      maxProfit := Math_max (maxProfit t) profit;
      maxLoss := maxLoss t;
      totalProfitSum := totalProfitSum t + profit;
      totalLossSum := totalLossSum t |},
   {| currentWins := S (currentWins s);
      currentLosses := 0;
      maxConsecWinsCount := maxConsecWinsCount s;
      maxConsecLossesCount := maxConsecLossesCount s;
      maxConsecWins_d := maxConsecWins_d s;
      maxConsecLosses_d := maxConsecLosses_d s;
      currentWin_d := currentWin_d s + profit;
      currentLoss_d := 0 |})%float.

(** Any other trade: a negative or a [NaN] profit. *)
Definition loss (profit : number) (t : Tally) (s : Streaks) : Tally * Streaks :=
  ({| t_grossProfit := t_grossProfit t;
      t_grossLoss := t_grossLoss t + Math_abs profit;
      wins := wins t;
      losses := S (losses t);
      maxProfit := maxProfit t;
      maxLoss := Math_min (maxLoss t) profit;
      totalProfitSum := totalProfitSum t;
      totalLossSum := totalLossSum t + profit |},
   {| currentWins := 0;
      currentLosses := S (currentLosses s);
      maxConsecWinsCount := maxConsecWinsCount s;
      maxConsecLossesCount := maxConsecLossesCount s;
      maxConsecWins_d := maxConsecWins_d s;
      maxConsecLosses_d := maxConsecLosses_d s;
      currentWin_d := 0;
      currentLoss_d := currentLoss_d s + profit |})%float.

(** The four running extrema of the streaks, updated after every trade. *)
Definition update_streak_maxima (s : Streaks) : Streaks :=
  {| currentWins := currentWins s;
     currentLosses := currentLosses s;
     maxConsecWinsCount := Nat.max (maxConsecWinsCount s) (currentWins s);
     maxConsecLossesCount := Nat.max (maxConsecLossesCount s) (currentLosses s);
     maxConsecWins_d := Math_max (maxConsecWins_d s) (currentWin_d s);
     maxConsecLosses_d := Math_min (maxConsecLosses_d s) (currentLoss_d s);
     currentWin_d := currentWin_d s;
     currentLoss_d := currentLoss_d s |}.

(** Drawdown on balance, for every event. *)
Definition update_drawdown (balance : number) (dd : Drawdown) : Drawdown :=
  if (peakBalance dd <? balance)%float then
    {| peakBalance := balance; maxDDVal := maxDDVal dd; maxDDRel := maxDDRel dd |}
  else
    let ddVal := (peakBalance dd - balance)%float in
    let ddRel := (ddVal / peakBalance dd * 100)%float in
    {| peakBalance := peakBalance dd;
       maxDDVal := Math_max (maxDDVal dd) ddVal;
       maxDDRel := Math_max (maxDDRel dd) ddRel |}.

(** The body of [simulatedData.forEach]. *)
Definition step (st : State) (d : DataPoint) : State :=
  let profit := nullish (simulatedProfit d) (profit d) in
  let balance := nullish (simulatedBalance d) (balance d) in
  let '(t, s) :=
    if (0 <? volume d)%float then
      let '(t, s) :=
        if (0 <=? profit)%float then win profit (tally st) (streaks st)
        else loss profit (tally st) (streaks st) in
      (t, update_streak_maxima s)
    else (tally st, streaks st) in
  {| tally := t; streaks := s;
     drawdown := update_drawdown balance (drawdown st);
     runningBalance := balance |}.

Definition pass (simulatedData : list DataPoint) (initialDeposit : number) : State :=
  fold_left step simulatedData (init initialDeposit).

(** The values derived after the pass. *)
Definition profit_factor (t : Tally) : number :=
  if (t_grossLoss t =? 0)%float then t_grossProfit t
  else (t_grossProfit t / t_grossLoss t)%float.

(** [`${n} (${((n/total)*100).toFixed(2)}%)`] *)
Definition count_percent (n total : nat) : jsstring :=
  count_toString n ++ str " (" ++
  toFixed (of_count n / of_count total * 100)%float 2 ++ str "%)".

Definition empty_meta : ReportMeta :=
  {| totalNetProfit := None; grossProfit := None; grossLoss := None;
     profitFactor := None; sharpeRatio := None; balanceDDMax := None;
     equityDDMax := None; balanceDDRel := None; equityDDRel := None;
     totalTrades := 0; shortTrades := None; longTrades := None;
     profitTrades := None; lossTrades := None; largestProfit := None;
     largestLoss := None; largestProfitLoss := None;
     avgProfit := None; avgLoss := None;
     maxConsecWins_usd := None; maxConsecLosses_usd := None;
     maxConsecProfitCount := None; maxConsecLossCount := None;
     avgConsecWins := None; avgConsecLosses := None;
     fixedLotSize := None; period := None |}.

(** [calculateStats] *)
Definition calculateStats (simulatedData : list DataPoint) (initialDeposit : number)
  : ReportMeta :=
  match simulatedData with
  | [] => empty_meta
  | _ :: _ =>
      let trades := filter (fun d => (0 <? volume d)%float) simulatedData in
      let st := pass simulatedData initialDeposit in
      let t := tally st in
      let s := streaks st in
      let dd := drawdown st in
      let totalTrades := List.length trades in
      let netProfit := (t_grossProfit t - t_grossLoss t)%float in
      let profitFactor := profit_factor t in
      let avgProfit :=
        if (0 <? wins t)%nat then (totalProfitSum t / of_count (wins t))%float
        else 0%float in
      let avgLoss :=
        if (0 <? losses t)%nat then (totalLossSum t / of_count (losses t))%float
        else 0%float in
      {| totalNetProfit := Some (toFixed netProfit 2);
         grossProfit := Some (toFixed (t_grossProfit t) 2);
         grossLoss := Some (toFixed (- t_grossLoss t)%float 2);
         profitFactor := Some (toFixed profitFactor 2);
         sharpeRatio := Some (str "0.00");
         balanceDDMax :=
           Some (toFixed (maxDDVal dd) 2 ++ str " (" ++
                 toFixed (maxDDVal dd / peakBalance dd * 100)%float 2 ++ str "%)");
         equityDDMax := Some (str "0.00 (0.00%)");
         balanceDDRel :=
           Some (toFixed (maxDDRel dd) 2 ++ str "% (" ++
                 toFixed (maxDDVal dd) 2 ++ str ")");
         equityDDRel := Some (str "0.00% (0.00)");
         totalTrades := of_count totalTrades;
         shortTrades := Some (str "0 (0%)");
         longTrades := Some (str "0 (0%)");
         profitTrades := Some (count_percent (wins t) totalTrades);
         lossTrades := Some (count_percent (losses t) totalTrades);
         largestProfit := Some (toFixed (maxProfit t) 2);
         largestLoss := Some (toFixed (maxLoss t) 2);
         largestProfitLoss := None;
         avgProfit := Some (toFixed avgProfit 2);
         avgLoss := Some (toFixed avgLoss 2);
         maxConsecWins_usd := Some (toFixed (maxConsecWins_d s) 2);
         maxConsecLosses_usd := Some (toFixed (maxConsecLosses_d s) 2);
         maxConsecProfitCount := Some (count_toString (maxConsecWinsCount s));
         maxConsecLossCount := Some (count_toString (maxConsecLossesCount s));
         avgConsecWins := Some (str "0");
         avgConsecLosses := Some (str "0");
         fixedLotSize := None;
         period := Some (str "Simulated") |}
  end.

End Statistics.

Import Statistics.

(* ===================================================================== *)
(** * The resimulation transform, [src/components/Simulation.tsx] *)
(* ===================================================================== *)

Module Simulation.

(** The arithmetic the transform uses. It is read twice: on binary64
    numbers, as the code runs, and on rationals, where a statement "up to
    floating rounding" is an equation. *)
Class Arith (num : Type) := {
  a_zero : num;
  a_add : num -> num -> num;
  a_mul : num -> num -> num;
  a_div : num -> num -> num;
  a_gt : num -> num -> bool;
  a_truthy : num -> bool
}.

#[export] Instance float_arith : Arith number := {|
  a_zero := 0%float;
  a_add := PrimFloat.add;
  a_mul := PrimFloat.mul;
  a_div := PrimFloat.div;
  a_gt := fun a b => (b <? a)%float;
  a_truthy := truthy
|}.


Section Transform.
Context {num : Type} {A : Arith num}.

(** [x || 0] on a possibly undefined number. *)
Definition or_zero (x : option num) : num :=
  match x with
  | Some v => if a_truthy v then v else a_zero
  | None => a_zero
  end.

(** The new profit of one deal, from the fields the callback of
    [data.map] reads. *)
Definition simulated_profit (currentLotSize profit volume : num)
           (rawProfit commission swap : option num) : num :=
  if a_gt volume a_zero then
    let originalRawProfit := or_zero rawProfit in
    let originalCommission := or_zero commission in
    let originalSwap := or_zero swap in
    let ratio := a_div currentLotSize volume in
    let simRawProfit := a_mul originalRawProfit ratio in
    let simCommission := a_mul originalCommission ratio in
    let simSwap := originalSwap in
    a_add (a_add simRawProfit simSwap) simCommission
  else profit.
End Transform.

(** [storedLotSize || 0.1] *)
Definition currentLotSize (storedLotSize : number) : number :=
  or_else storedLotSize 0.1%float.

Definition simulatedProfit_of (lot : number) (deal : DataPoint) : number :=
  simulated_profit lot (profit deal) (volume deal)
                   (rawProfit deal) (commission deal) (swap deal).

(** The file holds a second copy of the component, whose callback does not
    read the breakdown and rescales the net profit of every trade:
    [simulatedProfit = (deal.profit / deal.volume) * currentLotSize]. *)
Definition simulatedProfit_net (lot : number) (deal : DataPoint) : number :=
  if (0 <? volume deal)%float then (profit deal / volume deal * lot)%float
  else profit deal.

(** [{ ...deal, simulatedBalance, simulatedProfit }] *)
Definition with_simulation (deal : DataPoint) (p b : number) : DataPoint :=
  {| time := time deal; balance := balance deal; profit := profit deal;
     volume := volume deal; date := date deal; type := type deal;
     swap := swap deal; commission := commission deal;
     rawProfit := rawProfit deal;
     simulatedProfit := Some p; simulatedBalance := Some b |}.

(** [data.map(deal => ...)], with the running [currentBalance] the
    callback updates threaded through. *)
Fixpoint simData (lot : number) (currentBalance : number) (data : list DataPoint)
  : list DataPoint :=
  match data with
  | [] => []
  | deal :: rest =>
      let p := simulatedProfit_of lot deal in
      let currentBalance := (currentBalance + p)%float in
      with_simulation deal p currentBalance :: simData lot currentBalance rest
  end.

(** [{ ...d, profit: d.simulatedProfit, balance: d.simulatedBalance }] *)
Definition stats_point (d : DataPoint) : DataPoint :=
  {| time := time d;
     balance := nullish (simulatedBalance d) (balance d);
     profit := nullish (simulatedProfit d) (profit d);
     volume := volume d; date := date d; type := type d;
     swap := swap d; commission := commission d; rawProfit := rawProfit d;
     simulatedProfit := simulatedProfit d;
     simulatedBalance := simulatedBalance d |}.

(** The fixed-lot test of the component. *)
Definition isFixedLot (data : list DataPoint) : bool :=
  match filter (fun d => (0 <? volume d)%float) data with
  | [] => false
  | first :: _ as trades =>
      forallb (fun d => (volume d =? volume first)%float) trades
  end.

(** [n] written with [width] decimal digits, zero padded (the digits above
    [width] are dropped). *)
Fixpoint pad_digits (width : nat) (n : Z) : jsstring :=
  match width with
  | O => []
  | S w => pad_digits w (n / 10) ++ [(48 + Z.to_N (n mod 10))%N]
  end.

(** The civil date of the day number [z] (days since 1970-01-01), in the
    proleptic Gregorian calendar: year, month, day. *)
Definition civil_from_days (z : Z) : Z * Z * Z :=
  let z := (z + 719468)%Z in
  let era := (z / 146097)%Z in
  let doe := (z - era * 146097)%Z in
  let yoe := ((doe - doe / 1460 + doe / 36524 - doe / 146096) / 365)%Z in
  let doy := (doe - (365 * yoe + yoe / 4 - yoe / 100))%Z in
  let mp := ((5 * doy + 2) / 153)%Z in
  let d := (doy - (153 * mp + 2) / 5 + 1)%Z in
  let m := (if mp <? 10 then mp + 3 else mp - 9)%Z in
  let y := (yoe + era * 400 + (if m <=? 2 then 1 else 0))%Z in
  (y, m, d).

(** [d.toISOString()]: [YYYY-MM-DDTHH:mm:ss.sssZ] in UTC, the year with a
    sign and six digits outside 0..9999; a [RangeError] on an invalid date.
    A date holds a time value of at most 8.64e15 in magnitude, so that the
    year has at most six digits. *)
Definition toISOString (d : option Z) : completion jsstring :=
  match d with
  | None => Throw RangeError
  | Some t =>
      let day := (t / 86400000)%Z in
      let tw := (t mod 86400000)%Z in
      let '(y, m, dd) := civil_from_days day in
      let year :=
        if ((0 <=? y) && (y <=? 9999))%Z then pad_digits 4 y
        else (if (y <? 0)%Z then 45%N else 43%N) :: pad_digits 6 (Z.abs y) in
      Normal (year ++ 45%N :: pad_digits 2 m ++ 45%N :: pad_digits 2 dd
              ++ 84%N :: pad_digits 2 (tw / 3600000)
              ++ 58%N :: pad_digits 2 ((tw / 60000) mod 60)
              ++ 58%N :: pad_digits 2 ((tw / 1000) mod 60)
              ++ 46%N :: pad_digits 3 (tw mod 1000) ++ [90%N])
  end.

(** [formatDate]: [d.toISOString().slice(0, 10).replace(/-/g, '.')] *)
Definition formatDate (d : option Z) : completion jsstring :=
  iso <- toISOString d ;;
  Normal (replace_all 45 46 (firstn 10 iso)).

(** [{ totalTrades: 0, totalNetProfit: "0.00" } as ReportMeta] *)
Definition refused_meta : ReportMeta :=
  {| totalNetProfit := Some (str "0.00"); grossProfit := None; grossLoss := None;
     profitFactor := None; sharpeRatio := None; balanceDDMax := None;
     equityDDMax := None; balanceDDRel := None; equityDDRel := None;
     totalTrades := 0; shortTrades := None; longTrades := None;
     profitTrades := None; lossTrades := None; largestProfit := None;
     largestLoss := None; largestProfitLoss := None;
     avgProfit := None; avgLoss := None;
     maxConsecWins_usd := None; maxConsecLosses_usd := None;
     maxConsecProfitCount := None; maxConsecLossCount := None;
     avgConsecWins := None; avgConsecLosses := None;
     fixedLotSize := None; period := None |}.

(** [simMeta.period = ...] *)
Definition with_period (m : ReportMeta) (p : jsstring) : ReportMeta :=
  {| totalNetProfit := totalNetProfit m; grossProfit := grossProfit m;
     grossLoss := grossLoss m; profitFactor := profitFactor m;
     sharpeRatio := sharpeRatio m; balanceDDMax := balanceDDMax m;
     equityDDMax := equityDDMax m; balanceDDRel := balanceDDRel m;
     equityDDRel := equityDDRel m; totalTrades := totalTrades m;
     shortTrades := shortTrades m; longTrades := longTrades m;
     profitTrades := profitTrades m; lossTrades := lossTrades m;
     largestProfit := largestProfit m; largestLoss := largestLoss m;
     largestProfitLoss := largestProfitLoss m;
     avgProfit := avgProfit m; avgLoss := avgLoss m;
     maxConsecWins_usd := maxConsecWins_usd m;
     maxConsecLosses_usd := maxConsecLosses_usd m;
     maxConsecProfitCount := maxConsecProfitCount m;
     maxConsecLossCount := maxConsecLossCount m;
     avgConsecWins := avgConsecWins m; avgConsecLosses := avgConsecLosses m;
     fixedLotSize := fixedLotSize m; period := Some p |}.

(** [simulatedData] and [simulatedMeta] of the component, lines 62 to 109
    of its [useMemo] callback: nothing is simulated for an empty or a
    mixed-lot report; otherwise the events are resimulated, their
    statistics computed and the period set from the first and the last
    date, which throws a [RangeError] when one of the two is invalid. The
    chart statistics the callback computes afterwards read the local time
    and the locale of the host and are left out, as is the comparison,
    which is [Views.comparison] below. *)
Definition simulate (data : list DataPoint) (initialDeposit storedLotSize : number)
  : completion (list DataPoint * ReportMeta) :=
  match data with
  | [] => Normal ([], refused_meta)
  | first :: _ =>
      if isFixedLot data then
        let sim := simData (currentLotSize storedLotSize) initialDeposit data in
        let simMeta := calculateStats (map stats_point sim) initialDeposit in
        start <- formatDate (date first) ;;
        finish <- formatDate (date (List.last data first)) ;;
        Normal (sim,
                with_period simMeta
                  (str "Simulated (" ++ start ++ str " - " ++ finish ++ str ")"))
      else Normal ([], refused_meta)
  end.

End Simulation.

Import Simulation.

(* ===================================================================== *)
(** * The stored lot size, [src/store/simulationSlice.ts], and what the
      components derive around the transform *)
(* ===================================================================== *)

Module SimulationSlice.

(** [interface SimulationState] *)
Record SimulationState := {
  s_data : list DataPoint;
  s_meta : ReportMeta;
  lotSize : number;
  s_initialDeposit : number
}.

Definition initialState : SimulationState :=
  {| s_data := []; s_meta := empty_meta; lotSize := 0; s_initialDeposit := 0 |}.

(** The three reducers. *)
Definition setSimulationResults (state : SimulationState)
           (data : list DataPoint) (meta : ReportMeta) (lot deposit : number)
  : SimulationState :=
  {| s_data := data; s_meta := meta; lotSize := lot; s_initialDeposit := deposit |}.

Definition setLotSize (state : SimulationState) (payload : number) : SimulationState :=
  {| s_data := s_data state; s_meta := s_meta state; lotSize := payload;
     s_initialDeposit := s_initialDeposit state |}.

Definition clearSimulation (state : SimulationState) : SimulationState :=
  {| s_data := []; s_meta := empty_meta; lotSize := 0; s_initialDeposit := 0 |}.

End SimulationSlice.

Import SimulationSlice.

Module Views.

(** [originalLotSize] of the simulation component: the volume of the first
    trade, 0 when there is none. *)
Definition originalLotSize (data : list DataPoint) : number :=
  match filter (fun d => (0 <? volume d)%float) data with
  | [] => 0%float
  | first :: _ => volume first
  end.

(** The effect that initialises the stored lot size:
    [if (isFixedLot && originalLotSize > 0 && storedLotSize === 0)
       dispatch(setLotSize(originalLotSize))]. *)
Definition initialise_lot (data : list DataPoint) (state : SimulationState)
  : SimulationState :=
  if isFixedLot data && (0 <? originalLotSize data)%float && (lotSize state =? 0)%float
  then setLotSize state (originalLotSize data)
  else state.

(** [handleLotSizeChange], on the text of the input field. *)
Definition handleLotSizeChange (value : jsstring) (state : SimulationState)
  : SimulationState :=
  let val := parseFloat value in
  if negb (isNaN val) then setLotSize state val else state.

(** The comparison of the original with the simulated net profit. *)
Record Comparison := {
  original : number;
  simulated : number;
  diff : number;
  diffPercent : number
}.

Definition comparison (originalMeta simMeta : ReportMeta) : Comparison :=
  let origProfit :=
    parseFloat (remove_all 44 (remove_ws (or_string (totalNetProfit originalMeta) (str "0")))) in
  let simProfit := parseFloat (or_string (totalNetProfit simMeta) (str "0")) in
  let diff := (simProfit - origProfit)%float in
  let diffPercent :=
    if negb (origProfit =? 0)%float then (diff / Math_abs origProfit * 100)%float
    else 0%float in
  {| original := origProfit; simulated := simProfit; diff := diff;
     diffPercent := diffPercent |}.

(** [d.date.getTime()] *)
Definition getTime (d : DataPoint) : number :=
  match date d with
  | Some t => of_Z t
  | None => nan
  end.

(** [Math.max(1, (lastDate.getTime() - firstDate.getTime())
                 / (1000 * 60 * 60 * 24 * 7))] of [avgPerWeek]. *)
Definition diffWeeks (first last : DataPoint) : number :=
  Math_max 1 ((getTime last - getTime first) / 604800000)%float.

(** [avgPerWeek], in [App.tsx] and in the simulation component: the number
    0 without data, a text otherwise. *)
Definition avgPerWeek (data : list DataPoint) (totalTrades : number)
  : number + jsstring :=
  match data with
  | [] => inl 0%float
  | first :: _ =>
      inr (toFixed (totalTrades / diffWeeks first (List.last data first))%float 2)
  end.

End Views.

Import Views.

(* ===================================================================== *)
(** * Vocabulary of the statements and sample inputs *)
(* ===================================================================== *)

(** ** Classes of binary64 values *)

(** A value that is not [NaN] and carries the sign [s]. *)
Definition signed_as (s : bool) (x : spec_float) : Prop :=
  match x with
  | S754_nan => False
  | S754_zero s' | S754_infinity s' | S754_finite s' _ _ => s' = s
  end.

Definition sf_finite (x : spec_float) : bool :=
  match x with
  | S754_zero _ | S754_finite _ _ _ => true
  | _ => false
  end.

(** The values [x] with [0 <= x]: both zeros, the positive finite values and
    [+Infinity]. *)
Definition sf_nonneg (x : spec_float) : bool :=
  match x with
  | S754_zero _ | S754_infinity false | S754_finite false _ _ => true
  | _ => false
  end.

Definition sf_is_zero (x : spec_float) : bool :=
  match x with S754_zero _ => true | _ => false end.

(** Two values that are equal or are both a zero. [x || 0] turns [-0] into
    [+0], which sums and products cannot tell apart except in the sign of a
    zero result. *)
Definition sf_same (x y : spec_float) : Prop :=
  x = y \/ (sf_is_zero x = true /\ sf_is_zero y = true).

(** ** Events *)

(** The balance an event contributes to the drawdown. *)
Definition event_balance (d : DataPoint) : number :=
  nullish (simulatedBalance d) (balance d).

(** Neither running maximum is below zero. *)
Definition never_negative (dd : Drawdown) : Prop :=
  (maxDDVal dd <? 0)%float = false /\ (maxDDRel dd <? 0)%float = false.

(** With a finite positive peak and finite balances no [NaN] arises. *)
Definition well_formed (dd : Drawdown) : Prop :=
  isFinite (peakBalance dd) = true /\ (0 <? peakBalance dd)%float = true /\
  (0 <=? maxDDVal dd)%float = true /\ (0 <=? maxDDRel dd)%float = true.

(** An event that is not a trade, with balance [b]. *)
Definition balance_event (b : number) : DataPoint :=
  {| time := []; balance := b; profit := 0; volume := 0; date := None;
     type := None; swap := None; commission := None; rawProfit := None;
     simulatedProfit := None; simulatedBalance := None |}.

(** A trade of the given volume, profit and balance, as the parser builds it
    when the report has no swap and no commission column. *)
Definition trade_event (v p b : number) : DataPoint :=
  {| time := []; balance := b; profit := p; volume := v; date := None;
     type := None; swap := Some 0%float; commission := Some 0%float;
     rawProfit := Some p; simulatedProfit := None; simulatedBalance := None |}.

(** The event [d] dated at the time value [t]. *)
Definition at_time (t : Z) (d : DataPoint) : DataPoint :=
  {| time := time d; balance := balance d; profit := profit d;
     volume := volume d; date := Some t; type := type d;
     swap := swap d; commission := commission d; rawProfit := rawProfit d;
     simulatedProfit := simulatedProfit d;
     simulatedBalance := simulatedBalance d |}.

(** A trade without the breakdown of its profit. *)
Definition bare_trade (v p : number) : DataPoint :=
  {| time := []; balance := 0; profit := p; volume := v; date := None;
     type := None; swap := None; commission := None; rawProfit := None;
     simulatedProfit := None; simulatedBalance := None |}.

(** A trade with the breakdown of its profit. *)
Definition full_trade (v raw sw cm : number) : DataPoint :=
  {| time := []; balance := 0; profit := (raw + sw + cm)%float; volume := v;
     date := None; type := None; swap := Some sw; commission := Some cm;
     rawProfit := Some raw; simulatedProfit := None; simulatedBalance := None |}.

(** ** Order of events *)

(** [a.date.getTime() <= b.date.getTime()]: false when a date is invalid. *)
Definition time_le (a b : DataPoint) : bool :=
  match date a, date b with
  | Some x, Some y => (x <=? y)%Z
  | _, _ => false
  end.

(** Every adjacent pair is in order. *)
Fixpoint sorted_by_time (l : list DataPoint) : bool :=
  match l with
  | a :: (b :: _) as r => time_le a b && sorted_by_time r
  | _ => true
  end.

Definition valid_date (d : DataPoint) : Prop := date d <> None.

Definition in_order (a b : DataPoint) : Prop := time_le a b = true.

Inductive ordered : list DataPoint -> Prop :=
| ordered_nil : ordered []
| ordered_one a : ordered [a]
| ordered_cons a b r : in_order a b -> ordered (b :: r) -> ordered (a :: b :: r).

(** ** Numeric cells *)





(** ** Sample reports *)

(** A row of [td] cells whose text is the concatenation of its cells, and a
    document of such rows. *)
Definition row_of (cells : list string) : Row :=
  {| tr_text := str (String.concat "" cells);
     tr_td := map str cells;
     tr_th_td := map str cells |}.

Definition document_of (rows : list (list string)) : Document :=
  {| doc_td := map str (List.concat rows); doc_tr := map row_of rows |}.

(** A ledger whose header names a swap column and whose only row stops
    before it:
    [<table><tr><td>Time</td><td>Type</td><td>Volume</td><td>Profit</td>
     <td>Balance</td><td>Swap</td></tr>
     <tr><td>2024.01.02 10:00:00</td><td>buy</td><td>0.10</td><td>5.00</td>
     <td>10005.00</td></tr></table>] *)
Definition short_row_report : Document :=
  document_of
    [["Time"; "Type"; "Volume"; "Profit"; "Balance"; "Swap"];
     ["2024.01.02 10:00:00"; "buy"; "0.10"; "5.00"; "10005.00"]]%string.

(** The report of scenario A of the specification, its rows out of order. *)
Definition fixed_lot_report : Document :=
  document_of
    [["Total Net Profit:"; "500.00"]; ["Initial Deposit:"; "10000"];
     ["Time"; "Type"; "Volume"; "Profit"; "Balance"];
     ["2024.01.03 10:00:00"; "buy"; "0.10"; "450.00"; "10500.00"];
     ["2024.01.01 10:00:00"; "buy"; "0.10"; "100.00"; "10100.00"];
     ["2024.01.02 10:00:00"; "sell"; "0.10"; "-50.00"; "10050.00"]]%string.

(** A report with a row whose date matches the pattern but is no date. *)
Definition invalid_date_report : Document :=
  document_of
    [["Time"; "Type"; "Volume"; "Profit"; "Balance"];
     ["2024.01.01 10:00:00"; "buy"; "0.10"; "100.00"; "10100.00"];
     ["2024.99.99"; "buy"; "0.10"; "50.00"; "10150.00"]]%string.

(** Two trades of different volumes. *)
Definition mixed_lot_report : Document :=
  document_of
    [["Time"; "Type"; "Volume"; "Profit"; "Balance"];
     ["2024.01.01 10:00:00"; "buy"; "0.10"; "100.00"; "10100.00"];
     ["2024.01.02 10:00:00"; "buy"; "0.20"; "50.00"; "10150.00"]]%string.

(** The result of a call that returned. *)
Definition returned (c : completion ParsedResult) : ParsedResult :=
  match c with
  | Normal r => r
  | Throw _ => {| data := []; initialDeposit := 0; reportMeta := empty_meta |}
  end.

Definition fixed_lot_result : ParsedResult :=
  returned (processData toLowerCase_ascii Date_parse_utc fixed_lot_report).

Definition mixed_lot_result : ParsedResult :=
  returned (processData toLowerCase_ascii Date_parse_utc mixed_lot_report).

(** ** Trades and their profits, as [calculateStats] reads them *)

(** [d.volume > 0] *)
Definition is_trade (d : DataPoint) : bool := (0 <? volume d)%float.

(** [(d as any).simulatedProfit ?? d.profit] *)
Definition event_profit (d : DataPoint) : number :=
  nullish (simulatedProfit d) (profit d).

(** A trade counted as a win, a trade counted as a loss. *)
Definition is_win (d : DataPoint) : bool :=
  is_trade d && (0 <=? event_profit d)%float.

Definition is_loss (d : DataPoint) : bool :=
  is_trade d && negb (0 <=? event_profit d)%float.

(** The counters of the streaks stay within the counts of the tally, and a
    win streak and a loss streak never run at the same time. *)
Definition streaks_consistent (t : Tally) (s : Streaks) : Prop :=
  (currentWins s <= maxConsecWinsCount s)%nat /\
  (currentLosses s <= maxConsecLossesCount s)%nat /\
  (currentWins s <= wins t)%nat /\ (currentLosses s <= losses t)%nat /\
  (maxConsecWinsCount s <= wins t)%nat /\
  (maxConsecLossesCount s <= losses t)%nat /\
  (currentWins s = 0%nat \/ currentLosses s = 0%nat).

(** The signs of the sums and extrema of the tally and the streaks. *)
Definition signs_kept (t : Tally) (s : Streaks) : Prop :=
  (0 <=? t_grossProfit t)%float = true /\
  (t_grossLoss t <? 0)%float = false /\
  (0 <=? maxProfit t)%float = true /\
  (0 <? maxLoss t)%float = false /\
  (0 <=? currentWin_d s)%float = true /\
  (0 <=? maxConsecWins_d s)%float = true /\
  (0 <? maxConsecLosses_d s)%float = false.

(** No win has been recorded. *)
Definition no_win_yet (t : Tally) (s : Streaks) : Prop :=
  wins t = 0%nat /\ t_grossProfit t = 0%float /\ maxProfit t = 0%float /\
  totalProfitSum t = 0%float /\ currentWins s = 0%nat /\
  maxConsecWinsCount s = 0%nat /\ currentWin_d s = 0%float /\
  maxConsecWins_d s = 0%float.

(** No loss has been recorded. *)
Definition no_loss_yet (t : Tally) (s : Streaks) : Prop :=
  losses t = 0%nat /\ t_grossLoss t = 0%float /\ maxLoss t = 0%float /\
  totalLossSum t = 0%float /\ currentLosses s = 0%nat /\
  maxConsecLossesCount s = 0%nat /\ currentLoss_d s = 0%float /\
  maxConsecLosses_d s = 0%float.

(** ** Simulated events *)

(** A simulated event carries the fields of the event it comes from. *)
Definition same_event (d s : DataPoint) : Prop :=
  time s = time d /\ balance s = balance d /\ profit s = profit d /\
  volume s = volume d /\ date s = date d /\ type s = type d /\
  swap s = swap d /\ commission s = commission d /\ rawProfit s = rawProfit d.

(** ** Parsed events *)

(** What every event the parser builds satisfies: its time text has the
    date pattern, its date is what the host reads in that text, its numbers
    are finite, its breakdown is present, and its profit is the sum of the
    breakdown. *)
Definition parsed_event (Date_parse : jsstring -> option Z) (d : DataPoint) : Prop :=
  matches_date_prefix (time d) = true /\
  date d = Date_parse (replace_all 46 45 (time d)) /\
  isFinite (volume d) = true /\ isFinite (balance d) = true /\
  (exists raw sw cm,
     rawProfit d = Some raw /\ swap d = Some sw /\ commission d = Some cm /\
     isFinite raw = true /\ isFinite sw = true /\ isFinite cm = true /\
     profit d = (raw + sw + cm)%float) /\
  isNaN (profit d) = false /\
  simulatedProfit d = None /\ simulatedBalance d = None.

(** The columns a row is read at are all covered by the guard of the row. *)
Definition columns_guarded (cols : Columns) : Prop :=
  (timeIdx cols <= max_index cols)%Z /\
  (swapIdx cols <= max_index cols)%Z /\
  (commIdx cols <= max_index cols)%Z.

(** The test that finds the header row. *)
Definition is_header (toLowerCase : jsstring -> jsstring) (row : Row) : bool :=
  let text := toLowerCase (tr_text row) in
  includes (str "time") text && includes (str "profit") text.

(** ** The report without the deposit label *)

(** A report whose cells never name the initial deposit: the deposit is
    then read in the first cell. *)
Definition unlabelled_report : Document :=
  document_of
    [["2500"; "Time"; "Type"; "Volume"; "Profit"; "Balance"];
     ["2024.01.01 10:00:00"; "buy"; "0.10"; "100.00"; "10100.00"; "0"]]%string.

(** ** More classes of binary64 values *)

Definition sf_nonpos (x : spec_float) : bool :=
  match x with
  | S754_zero _ | S754_infinity true | S754_finite true _ _ => true
  | _ => false
  end.

(** A positive finite value. *)
Definition sf_positive (x : spec_float) : bool :=
  match x with
  | S754_finite false _ _ => true
  | _ => false
  end.

(** ** Reports for the comparison and the weekly rate *)

(** A summary that holds only the net profit text. *)
Definition meta_of_profit (text : option string) : ReportMeta :=
  {| totalNetProfit := option_map str text; grossProfit := None; grossLoss := None;
     profitFactor := None; sharpeRatio := None; balanceDDMax := None;
     equityDDMax := None; balanceDDRel := None; equityDDRel := None;
     totalTrades := 0; shortTrades := None; longTrades := None;
     profitTrades := None; lossTrades := None; largestProfit := None;
     largestLoss := None; largestProfitLoss := None;
     avgProfit := None; avgLoss := None;
     maxConsecWins_usd := None; maxConsecLosses_usd := None;
     maxConsecProfitCount := None; maxConsecLossCount := None;
     avgConsecWins := None; avgConsecLosses := None;
     fixedLotSize := None; period := None |}.

(** An event that holds only a date. *)
Definition dated_event (t : option Z) : DataPoint :=
  {| time := []; balance := 0; profit := 0; volume := 0; date := t;
     type := None; swap := None; commission := None; rawProfit := None;
     simulatedProfit := None; simulatedBalance := None |}.

(* ===================================================================== *)
(** * Facts about binary64 numbers *)
(* ===================================================================== *)

(** A case on two numbers that their signs and classes settle. *)
Ltac by_classes a b :=
  destruct (Prim2SF a) as [[] | [] | | [] ? ?];
  destruct (Prim2SF b) as [[] | [] | | [] ? ?];
  simpl in *; try discriminate; try reflexivity; try congruence.

(** The rounding of [SpecFloat] keeps the sign it is given and never yields
    [NaN] on a non-negative significand. *)
Section Rounding.
Variables prec emax : Z.

Lemma iter_pos_invariant (A : Type) (f : A -> A) (P : A -> Prop) :
  (forall x, P x -> P (f x)) ->
  forall p x, P x -> P (iter_pos f p x).
Proof.
  intros Hf p; induction p as [p IH | p IH |]; intros x Hx; simpl; auto.
Qed.

Lemma shr_1_nonneg mrs : (0 <= shr_m mrs)%Z -> (0 <= shr_m (shr_1 mrs))%Z.
Proof.
  destruct mrs as [m r s]; simpl.
  destruct m as [| [p | p |] | [p | p |]]; simpl; lia.
Qed.

Lemma shr_nonneg mrs e n :
  (0 <= shr_m mrs)%Z -> (0 <= shr_m (fst (shr mrs e n)))%Z.
Proof.
  intros H; destruct n as [| p | p]; simpl; auto.
  apply iter_pos_invariant with (P := fun x => (0 <= shr_m x)%Z); auto.
  apply shr_1_nonneg.
Qed.

Lemma shr_m_of_loc m l : shr_m (shr_record_of_loc m l) = m.
Proof. destruct l as [| []]; reflexivity. Qed.

Lemma shr_fexp_nonneg m e l :
  (0 <= m)%Z -> (0 <= shr_m (fst (shr_fexp prec emax m e l)))%Z.
Proof.
  intros H; unfold shr_fexp; apply shr_nonneg; rewrite shr_m_of_loc; exact H.
Qed.

Lemma round_nearest_even_nonneg m l :
  (0 <= m)%Z -> (0 <= round_nearest_even m l)%Z.
Proof.
  intros H; destruct l as [| []]; simpl; try lia.
  destruct (Z.even m); lia.
Qed.

Lemma binary_round_aux_signed s m e l :
  (0 <= m)%Z -> signed_as s (binary_round_aux prec emax s m e l).
Proof.
  intros H; unfold binary_round_aux.
  pose proof (shr_fexp_nonneg m e l H) as H1.
  destruct (shr_fexp prec emax m e l) as [mrs' e']; simpl in H1.
  pose proof (shr_fexp_nonneg _ e' loc_Exact
                (round_nearest_even_nonneg _ (loc_of_shr_record mrs') H1)) as H2.
  destruct (shr_fexp prec emax (round_nearest_even (shr_m mrs') (loc_of_shr_record mrs'))
                     e' loc_Exact) as [mrs'' e'']; simpl in H2.
  destruct (shr_m mrs'') as [| p | p]; simpl; try reflexivity; try lia.
  destruct (e'' <=? emax - prec)%Z; reflexivity.
Qed.

Lemma binary_round_signed s m e : signed_as s (binary_round prec emax s m e).
Proof.
  unfold binary_round.
  destruct (shl_align m e (fexp prec emax (Z.pos (digits2_pos m) + e))) as [mz ez].
  apply binary_round_aux_signed; lia.
Qed.

Lemma binary_normalize_not_nan m e sz : binary_normalize prec emax m e sz <> S754_nan.
Proof.
  destruct m as [| p | p]; simpl; try discriminate.
  - pose proof (binary_round_signed false p e) as H.
    destruct (binary_round prec emax false p e); simpl in H; congruence.
  - pose proof (binary_round_signed true p e) as H.
    destruct (binary_round prec emax true p e); simpl in H; congruence.
Qed.

Lemma signed_nonneg x : signed_as false x -> sf_nonneg x = true.
Proof. destruct x as [s | s | | s m e]; simpl; intros H; subst; easy. Qed.

Lemma SFadd_nonneg x y :
  sf_nonneg x = true -> sf_nonneg y = true -> sf_nonneg (SFadd prec emax x y) = true.
Proof.
  destruct x as [sx | [] | | [] mx ex]; destruct y as [sy | [] | | [] my ey];
    simpl; try discriminate; try reflexivity; intros _ _.
  - destruct sx, sy; reflexivity.
  - apply signed_nonneg, binary_round_signed.
Qed.

Lemma SFsub_finite_not_nan x y :
  sf_finite x = true -> sf_finite y = true -> SFsub prec emax x y <> S754_nan.
Proof.
  destruct x as [sx | sx | | sx mx ex]; destruct y as [sy | sy | | sy my ey];
    simpl; try discriminate; intros _ _.
  - destruct sx, sy; discriminate.
  - apply binary_normalize_not_nan.
Qed.

Lemma SFmul_not_nan x y :
  x <> S754_nan -> sf_finite y = true -> y <> S754_zero true -> y <> S754_zero false ->
  SFmul prec emax x y <> S754_nan.
Proof.
  destruct x as [sx | sx | | sx mx ex]; destruct y as [[] | sy | | sy my ey];
    simpl; try discriminate; try congruence; intros _ _ _ _.
  assert (H : signed_as (xorb sx sy)
                (binary_round_aux prec emax (xorb sx sy) (Z.pos (mx * my)) (ex + ey) loc_Exact))
    by (apply binary_round_aux_signed; lia).
  destruct (binary_round_aux prec emax (xorb sx sy) (Z.pos (mx * my)) (ex + ey) loc_Exact);
    simpl in H; easy.
Qed.

Lemma SFdiv_core_nonneg m1 e1 m2 e2 :
  (0 <= fst (fst (SFdiv_core_binary prec emax (Z.pos m1) e1 (Z.pos m2) e2)))%Z.
Proof.
  unfold SFdiv_core_binary.
  set (s := (e1 - e2 - _)%Z).
  set (m' := match s with Z.pos _ => Z.shiftl (Z.pos m1) s | 0%Z => Z.pos m1 | Z.neg _ => 0%Z end).
  assert (Hm : (0 <= m')%Z).
  { unfold m'; destruct s; try lia. apply Z.shiftl_nonneg; lia. }
  pose proof (Z_div_mod m' (Z.pos m2) eq_refl) as H.
  destruct (Z.div_eucl m' (Z.pos m2)) as [q r]; simpl.
  destruct H as [H1 H2]. nia.
Qed.

Lemma SFdiv_not_nan x y :
  x <> S754_nan -> sf_finite y = true -> y <> S754_zero true -> y <> S754_zero false ->
  SFdiv prec emax x y <> S754_nan.
Proof.
  destruct x as [sx | sx | | sx mx ex]; destruct y as [[] | sy | | sy my ey];
    simpl; try discriminate; try congruence; intros _ _ _ _.
  pose proof (SFdiv_core_nonneg mx ex my ey) as Hq.
  destruct (SFdiv_core_binary prec emax (Z.pos mx) ex (Z.pos my) ey) as [[q e'] l].
  simpl in Hq.
  pose proof (binary_round_aux_signed (xorb sx sy) q e' l Hq) as H.
  destruct (binary_round_aux prec emax (xorb sx sy) q e' l); simpl in H; easy.
Qed.

End Rounding.

(** The comparisons and the arithmetic of [number], read through the
    specification of binary64. *)
Section NumberFacts.
Open Scope float_scope.

Lemma Prim2SF_zero : Prim2SF 0 = S754_zero false.
Proof. reflexivity. Qed.

Lemma SFeqb_refl x : SFeqb x x = match x with S754_nan => false | _ => true end.
Proof.
  destruct x as [s | [] | | [] m e]; try reflexivity;
    unfold SFeqb, SFcompare; rewrite Z.compare_refl, Pos.compare_cont_refl; reflexivity.
Qed.

Lemma isNaN_spec x :
  isNaN x = match Prim2SF x with S754_nan => true | _ => false end.
Proof.
  unfold isNaN; rewrite eqb_spec, SFeqb_refl; destruct (Prim2SF x); reflexivity.
Qed.

Lemma isNaN_false x : isNaN x = false <-> Prim2SF x <> S754_nan.
Proof. rewrite isNaN_spec; destruct (Prim2SF x); split; congruence. Qed.

Lemma leb0_spec x : (0 <=? x) = sf_nonneg (Prim2SF x).
Proof.
  rewrite leb_spec, Prim2SF_zero; destruct (Prim2SF x) as [s | [] | | [] m e]; reflexivity.
Qed.

Lemma ltb0_spec x :
  (0 <? x) = match Prim2SF x with
             | S754_infinity false | S754_finite false _ _ => true
             | _ => false
             end.
Proof.
  rewrite ltb_spec, Prim2SF_zero; destruct (Prim2SF x) as [s | [] | | [] m e]; reflexivity.
Qed.

Lemma lt0b_spec x :
  (x <? 0) = match Prim2SF x with
             | S754_infinity true | S754_finite true _ _ => true
             | _ => false
             end.
Proof.
  rewrite ltb_spec, Prim2SF_zero; destruct (Prim2SF x) as [s | [] | | [] m e]; reflexivity.
Qed.

Lemma eqb0_spec x :
  (x =? 0) = match Prim2SF x with S754_zero _ => true | _ => false end.
Proof.
  rewrite eqb_spec, Prim2SF_zero; destruct (Prim2SF x) as [s | [] | | [] m e]; reflexivity.
Qed.

Lemma isFinite_spec x : isFinite x = sf_finite (Prim2SF x).
Proof.
  unfold isFinite, is_infinity.
  rewrite isNaN_spec, eqb_spec, abs_spec.
  change (Prim2SF infinity) with (S754_infinity false).
  destruct (Prim2SF x) as [s | [] | | [] m e]; reflexivity.
Qed.

Lemma nonneg_not_nan x : (0 <=? x) = true -> isNaN x = false.
Proof.
  rewrite leb0_spec, isNaN_spec; destruct (Prim2SF x) as [s | [] | | [] m e]; easy.
Qed.

Lemma nonneg_not_negative x : (0 <=? x) = true -> (x <? 0) = false.
Proof.
  rewrite leb0_spec, lt0b_spec; destruct (Prim2SF x) as [s | [] | | [] m e]; easy.
Qed.

Lemma zero_not_positive x : (x =? 0) = true -> (0 <? x) = false.
Proof.
  rewrite eqb0_spec, ltb0_spec; destruct (Prim2SF x) as [s | [] | | [] m e]; easy.
Qed.

Lemma add_nonneg a b : (0 <=? a) = true -> (0 <=? b) = true -> (0 <=? a + b) = true.
Proof.
  rewrite !leb0_spec, add_spec. apply SFadd_nonneg.
Qed.

Lemma sub_finite_not_nan a b :
  isFinite a = true -> isFinite b = true -> isNaN (a - b) = false.
Proof.
  rewrite !isFinite_spec, isNaN_false, sub_spec. apply SFsub_finite_not_nan.
Qed.

Lemma div_not_nan a b :
  isNaN a = false -> isFinite b = true -> (b =? 0) = false -> isNaN (a / b) = false.
Proof.
  rewrite isFinite_spec, eqb0_spec, !isNaN_false, div_spec.
  intros Ha Hb Hz; apply SFdiv_not_nan; auto;
    intros E; rewrite E in Hz; discriminate.
Qed.

Lemma mul_100_not_nan a : isNaN a = false -> isNaN (a * 100) = false.
Proof.
  rewrite !isNaN_false, mul_spec. intros Ha.
  apply SFmul_not_nan; auto; vm_compute; congruence.
Qed.

Lemma positive_nonzero x : (0 <? x) = true -> (x =? 0) = false.
Proof.
  rewrite eqb0_spec, ltb0_spec; destruct (Prim2SF x) as [s | [] | | [] m e]; easy.
Qed.

Lemma lt_positive a b : (0 <? a) = true -> (a <? b) = true -> (0 <? b) = true.
Proof.
  rewrite !ltb0_spec, ltb_spec; unfold SFltb; by_classes a b.
Qed.

(** [Math.max] *)
Lemma Math_max_never_negative a b :
  (a <? 0) = false -> (Math_max a b <? 0) = false.
Proof.
  unfold Math_max; intros Ha.
  destruct (isNaN a || isNaN b) eqn:Hn; [reflexivity |].
  apply orb_false_elim in Hn; destruct Hn as [Hna Hnb].
  destruct (a <? b) eqn:Hab; [| destruct (b <? a) eqn:Hba; [exact Ha |]].
  - revert Ha Hab; rewrite !lt0b_spec, ltb_spec; unfold SFltb; by_classes a b.
  - destruct (get_sign a); [| exact Ha].
    revert Ha Hna Hnb Hab Hba.
    rewrite !lt0b_spec, !isNaN_spec, !ltb_spec; unfold SFltb; by_classes a b.
Qed.

Lemma Math_max_nonneg a b :
  (0 <=? a) = true -> isNaN b = false -> (0 <=? Math_max a b) = true.
Proof.
  unfold Math_max; intros Ha Hnb.
  rewrite (nonneg_not_nan a Ha), Hnb; simpl.
  destruct (a <? b) eqn:Hab; [| destruct (b <? a) eqn:Hba; [exact Ha |]].
  - revert Ha Hab; rewrite !leb0_spec, ltb_spec; unfold SFltb; by_classes a b.
  - destruct (get_sign a); [| exact Ha].
    revert Ha Hnb Hab Hba.
    rewrite !leb0_spec, !isNaN_spec, !ltb_spec; unfold SFltb; by_classes a b.
Qed.

End NumberFacts.

(* ===================================================================== *)
(** * The statistics engine: profit factor, drawdown, percentages *)
(* ===================================================================== *)

Section StatisticsFacts.
Open Scope float_scope.

(** An invariant of the state that every step keeps holds after the pass. *)
Lemma pass_invariant (P : State -> Prop) (Q : DataPoint -> Prop) :
  (forall st d, Q d -> P st -> P (step st d)) ->
  forall events st, Forall Q events -> P st -> P (fold_left step events st).
Proof.
  intros Hstep events; induction events as [| d rest IH]; intros st Hq Hp; simpl.
  - exact Hp.
  - inversion Hq; subst. apply IH; auto.
Qed.

Lemma Forall_True (A : Type) (l : list A) : Forall (fun _ => True) l.
Proof. induction l; constructor; auto. Qed.

Lemma drawdown_step st d :
  drawdown (step st d) = update_drawdown (event_balance d) (drawdown st).
Proof.
  unfold step. destruct (0 <? volume d).
  - destruct (if 0 <=? nullish (simulatedProfit d) (profit d)
              then win _ (tally st) (streaks st)
              else loss _ (tally st) (streaks st)); reflexivity.
  - reflexivity.
Qed.

Lemma tally_step_non_trade st d :
  (0 <? volume d) = false -> tally (step st d) = tally st.
Proof. intros H; unfold step; rewrite H; reflexivity. Qed.



Lemma update_drawdown_never_negative b dd :
  never_negative dd -> never_negative (update_drawdown b dd).
Proof.
  intros [H1 H2]; unfold update_drawdown, never_negative.
  destruct (peakBalance dd <? b); simpl; auto using Math_max_never_negative.
Qed.

Lemma update_drawdown_well_formed b dd :
  isFinite b = true -> well_formed dd -> well_formed (update_drawdown b dd).
Proof.
  intros Hb (Hf & Hp & H1 & H2); unfold update_drawdown, well_formed.
  destruct (peakBalance dd <? b) eqn:Hlt; simpl.
  - repeat split; auto. eapply lt_positive; eauto.
  - assert (Hs : isNaN (peakBalance dd - b) = false) by (apply sub_finite_not_nan; auto).
    repeat split; auto.
    + apply Math_max_nonneg; auto.
    + apply Math_max_nonneg; auto.
      apply mul_100_not_nan, div_not_nan; auto using positive_nonzero.
Qed.

Lemma drawdown_pass_never_negative events dep :
  never_negative (drawdown (pass events dep)).
Proof.
  unfold pass.
  apply pass_invariant
    with (P := fun st => never_negative (drawdown st)) (Q := fun _ => True).
  - intros st d _ H; rewrite drawdown_step; apply update_drawdown_never_negative, H.
  - apply Forall_True.
  - split; reflexivity.
Qed.

Lemma drawdown_pass_well_formed events dep :
  isFinite dep = true -> (0 <? dep) = true ->
  Forall (fun d => isFinite (event_balance d) = true) events ->
  well_formed (drawdown (pass events dep)).
Proof.
  intros Hf Hp Hall; unfold pass.
  apply pass_invariant
    with (P := fun st => well_formed (drawdown st))
         (Q := fun d => isFinite (event_balance d) = true); auto.
  - intros st d Hd H; rewrite drawdown_step; apply update_drawdown_well_formed; auto.
  - repeat split; auto.
Qed.

Lemma tally_pass_no_trades events st :
  Forall (fun d => (volume d =? 0) = true) events ->
  tally (fold_left step events st) = tally st.
Proof.
  intros H.
  apply pass_invariant
    with (P := fun st' => tally st' = tally st)
         (Q := fun d => (volume d =? 0) = true); auto.
  intros st' d Hd Hst. rewrite tally_step_non_trade; auto using zero_not_positive.
Qed.

Lemma filter_no_trades events :
  Forall (fun d => (volume d =? 0) = true) events ->
  filter (fun d => 0 <? volume d) events = [].
Proof.
  induction 1 as [| d rest Hd _ IH]; simpl; auto.
  rewrite (zero_not_positive _ Hd); exact IH.
Qed.

End StatisticsFacts.



(** C5 as stated fails in "not Infinity": two winning trades of profit 1e308
    each, both finite, leave a gross loss of 0 and a gross profit that
    overflows, and the profit factor reads "Infinity". *)
Lemma C5_infinity_counterexample :
  let events := [trade_event 0.1 1e308 1e308; trade_event 0.1 1e308 1e308] in
  let t := tally (pass events 0) in
  Forall (fun d => isFinite (profit d) = true) events /\
  (t_grossLoss t =? 0)%float = true /\
  t_grossProfit t = infinity /\
  profitFactor (calculateStats events 0) = Some (str "Infinity").
Proof. vm_compute. repeat split; repeat constructor. Qed.

(** C8, as amended. The two running maxima of the drawdown are never
    negative: each is [>= 0] or [NaN]. They are [>= 0] when the starting
    balance is finite and positive and every balance is finite. On an event
    whose balance is not above the running peak the absolute drawdown is
    peak - balance, the relative drawdown is that value divided by the peak
    times 100, and each maximum is updated on its own; on an event whose
    balance is above the peak only the peak moves. *)
Theorem C8_drawdown_never_negative :
  forall (events : list DataPoint) (dep : number),
    let dd := drawdown (pass events dep) in
    ((maxDDVal dd <? 0)%float = false /\ (maxDDRel dd <? 0)%float = false) /\
    (isFinite dep = true -> (0 <? dep)%float = true ->
     Forall (fun d => isFinite (event_balance d) = true) events ->
     (0 <=? maxDDVal dd)%float = true /\ (0 <=? maxDDRel dd)%float = true) /\
    (forall st d,
       let peak := peakBalance (drawdown st) in
       let b := event_balance d in
       drawdown (step st d) =
       if (peak <? b)%float then
         {| peakBalance := b; maxDDVal := maxDDVal (drawdown st);
            maxDDRel := maxDDRel (drawdown st) |}
       else
         {| peakBalance := peak;
            maxDDVal := Math_max (maxDDVal (drawdown st)) (peak - b)%float;
            maxDDRel := Math_max (maxDDRel (drawdown st)) ((peak - b) / peak * 100)%float |}).
Proof.
  intros events dep dd; split; [| split].
  - apply (drawdown_pass_never_negative events dep).
  - intros Hf Hp Hall.
    destruct (drawdown_pass_well_formed events dep Hf Hp Hall) as (_ & _ & H1 & H2).
    split; assumption.
  - intros st d; rewrite drawdown_step; reflexivity.
Qed.

Lemma C8_drawdown_never_negative_witness :
  let dd := drawdown (pass [balance_event 10000; balance_event 9000; balance_event 9500] 10000) in
  (0 <=? maxDDVal dd)%float = true /\ (0 <=? maxDDRel dd)%float = true.
Proof.
  pose proof (C8_drawdown_never_negative
                [balance_event 10000; balance_event 9000; balance_event 9500] 10000)
    as [_ [H _]].
  apply H.
  - vm_compute; reflexivity.
  - vm_compute; reflexivity.
  - repeat constructor.
Defined.

(** C8 as stated fails: with a starting balance of 0 and an event of balance
    0 the relative drawdown is 0/0, and the maximum relative drawdown is
    [NaN], which is not [>= 0]. The resimulation reaches this state from a
    report without a deposit whose first trade has profit 0. *)
Lemma C8_drawdown_nan_counterexample :
  let dd := drawdown (pass [balance_event 0] 0) in
  maxDDRel dd = nan /\ (0 <=? maxDDRel dd)%float = false /\
  balanceDDRel (calculateStats [balance_event 0] 0) = Some (str "NaN% (0.00)") /\
  match simulate [at_time 1704103200000 (trade_event 0.1 0 0)] 0 0.1 with
  | Normal (_, meta) => balanceDDRel meta = Some (str "NaN% (0.00)")
  | Throw _ => False
  end.
Proof. vm_compute. repeat split. Qed.

(** C10. For a non-empty sequence without trades the trade count is 0 and
    both percentages are 0/0: the two fields read "0 (NaN%)". *)
Theorem C10_no_trades_nan_percent :
  forall (events : list DataPoint) (dep : number),
    events <> [] ->
    Forall (fun d => (volume d =? 0)%float = true) events ->
    let meta := calculateStats events dep in
    totalTrades meta = 0%float /\
    profitTrades meta = Some (str "0 (NaN%)") /\
    lossTrades meta = Some (str "0 (NaN%)").
Proof.
  intros events dep Hne Hall meta.
  destruct events as [| d rest]; [congruence |].
  unfold meta, calculateStats; cbn [totalTrades profitTrades lossTrades].
  rewrite (filter_no_trades _ Hall).
  unfold pass; rewrite (tally_pass_no_trades _ _ Hall).
  repeat split.
Qed.

Lemma C10_no_trades_nan_percent_witness :
  profitTrades (calculateStats [balance_event 10000] 10000) = Some (str "0 (NaN%)").
Proof.
  apply (C10_no_trades_nan_percent [balance_event 10000] 10000).
  - discriminate.
  - repeat constructor.
Defined.

(* ===================================================================== *)
(** * The resimulation transform: the new profit of a deal *)
(* ===================================================================== *)

Section SignedZero.
Variables prec emax : Z.

Lemma sf_same_refl x : sf_same x x.
Proof. left; reflexivity. Qed.

Lemma SFmul_same x x' r :
  sf_same x x' -> sf_same (SFmul prec emax x r) (SFmul prec emax x' r).
Proof.
  intros [-> | [Hx Hx']]; [apply sf_same_refl |].
  destruct x; try discriminate; destruct x'; try discriminate.
  destruct r; simpl; solve [left; reflexivity | right; split; reflexivity].
Qed.

Lemma SFadd_same x x' y y' :
  sf_same x x' -> sf_same y y' ->
  sf_same (SFadd prec emax x y) (SFadd prec emax x' y').
Proof.
  intros [-> | [Hx Hx']] [-> | [Hy Hy']]; [apply sf_same_refl | | |].
  - destruct y as [[] | | |]; try discriminate; destruct y' as [[] | | |]; try discriminate;
      destruct x' as [[] | [] | | [] m e]; simpl;
      solve [left; reflexivity | right; split; reflexivity].
  - destruct x as [[] | | |]; try discriminate; destruct x' as [[] | | |]; try discriminate;
      destruct y' as [[] | [] | | [] m e]; simpl;
      solve [left; reflexivity | right; split; reflexivity].
  - destruct x as [[] | | |]; try discriminate; destruct x' as [[] | | |]; try discriminate;
      destruct y as [[] | | |]; try discriminate; destruct y' as [[] | | |]; try discriminate;
      simpl; right; split; reflexivity.
Qed.

End SignedZero.

Section SimulationFacts.
Open Scope float_scope.

Lemma same_number_of_sf a b : sf_same (Prim2SF a) (Prim2SF b) -> same_number a b = true.
Proof.
  unfold same_number; rewrite !isNaN_spec, eqb_spec.
  intros [E | [Ha Hb]].
  - rewrite E, SFeqb_refl; destruct (Prim2SF b); reflexivity.
  - destruct (Prim2SF a); try discriminate; destruct (Prim2SF b); try discriminate.
    reflexivity.
Qed.

Lemma or_else_zero_same x :
  isNaN x = false -> sf_same (Prim2SF (or_else x 0)) (Prim2SF x).
Proof.
  intros Hn; unfold or_else, truthy; rewrite Hn; simpl.
  destruct (x =? 0) eqn:E; simpl; [| apply sf_same_refl].
  right; split; [reflexivity |].
  rewrite eqb0_spec in E; destruct (Prim2SF x); try discriminate; reflexivity.
Qed.

Lemma or_zero_same (x : option number) :
  (forall v, x = Some v -> isNaN v = false) ->
  sf_same (Prim2SF (or_zero x)) (Prim2SF (nullish x 0)).
Proof.
  destruct x as [v |]; simpl; intros H; [| apply sf_same_refl].
  apply (or_else_zero_same v), H; reflexivity.
Qed.

(** The sum the transform forms, whatever the sign of a zero component. *)
Lemma scaled_sum_same raw sw cm r :
  (forall v, raw = Some v -> isNaN v = false) ->
  (forall v, sw = Some v -> isNaN v = false) ->
  (forall v, cm = Some v -> isNaN v = false) ->
  same_number (or_zero raw * r + or_zero sw + or_zero cm * r)
              (nullish raw 0 * r + nullish sw 0 + nullish cm 0 * r) = true.
Proof.
  intros Hr Hs Hc; apply same_number_of_sf.
  rewrite !add_spec, !mul_spec.
  apply SFadd_same; [apply SFadd_same |]; try apply SFmul_same;
    apply or_zero_same; assumption.
Qed.

(** Without any component the sum is [+0] as soon as the ratio is finite. *)
Lemma zero_sum r : isFinite r = true -> 0 * r + 0 + 0 * r = 0.
Proof.
  rewrite isFinite_spec; intros Hf; apply Prim2SF_inj.
  rewrite !add_spec, !mul_spec, Prim2SF_zero.
  destruct (Prim2SF r) as [[] | [] | | [] m e]; try discriminate; reflexivity.
Qed.




End SimulationFacts.

(** C1, as amended. For a chosen lot size [L]: an event of volume 0 keeps its
    profit; a trade gets [rawProfit * r + swap + commission * r] with
    [r = L / volume], where a component that is missing counts as 0 (as
    numbers: the sign of a zero result apart); so a trade with no breakdown
    at all gets 0 whenever [r] is finite, and there is no fallback to
    [(originalNetProfit / volume) * L]. *)
Theorem C1_resimulated_profit :
  forall (L : number) (deal : DataPoint),
    ((volume deal =? 0)%float = true -> simulatedProfit_of L deal = profit deal) /\
    ((0 <? volume deal)%float = true ->
     (forall v, rawProfit deal = Some v -> isNaN v = false) ->
     (forall v, swap deal = Some v -> isNaN v = false) ->
     (forall v, commission deal = Some v -> isNaN v = false) ->
     let r := (L / volume deal)%float in
     same_number (simulatedProfit_of L deal)
                 (nullish (rawProfit deal) 0 * r + nullish (swap deal) 0
                  + nullish (commission deal) 0 * r)%float = true) /\
    ((0 <? volume deal)%float = true ->
     rawProfit deal = None -> swap deal = None -> commission deal = None ->
     isFinite (L / volume deal)%float = true ->
     simulatedProfit_of L deal = 0%float).
Proof.
  intros L deal; split; [| split].
  - intros H; unfold simulatedProfit_of, simulated_profit; simpl.
    rewrite (zero_not_positive _ H); reflexivity.
  - intros H Hr Hs Hc r.
    unfold simulatedProfit_of, simulated_profit; simpl.
    rewrite H; apply scaled_sum_same; assumption.
  - intros H Eraw Esw Ecm Hf.
    unfold simulatedProfit_of, simulated_profit; simpl.
    rewrite H, Eraw, Esw, Ecm; simpl. apply zero_sum, Hf.
Qed.

Lemma C1_resimulated_profit_witness :
  simulatedProfit_of 0.2 (balance_event 10000) = 0%float /\
  same_number (simulatedProfit_of 0.2 (full_trade 0.1 100 (-5) (-2)))
              (100 * (0.2 / 0.1) + -5 + -2 * (0.2 / 0.1))%float = true /\
  simulatedProfit_of 0.2 (bare_trade 0.1 100) = 0%float.
Proof.
  split; [| split].
  - destruct (C1_resimulated_profit 0.2 (balance_event 10000)) as [H _].
    exact (H eq_refl).
  - destruct (C1_resimulated_profit 0.2 (full_trade 0.1 100 (-5) (-2))) as [_ [H _]].
    apply (H eq_refl); intros v E; injection E as <-; reflexivity.
  - destruct (C1_resimulated_profit 0.2 (bare_trade 0.1 100)) as [_ [_ H]].
    apply H; reflexivity.
Defined.

(** C1 as stated fails in its fallback: a trade of volume 0.1 and net profit
    100 that carries no breakdown is given the new profit 0 at lot size 0.2,
    not (100 / 0.1) * 0.2 = 200. *)
Lemma C1_fallback_counterexample :
  let deal := bare_trade 0.1 100 in
  simulatedProfit_of 0.2 deal = 0%float /\
  (profit deal / volume deal * 0.2)%float = 200%float /\
  (simulatedProfit_of 0.2 deal =? profit deal / volume deal * 0.2)%float = false.
Proof. vm_compute. repeat split. Qed.

(** The second copy of the component gives that trade 200. *)
Example net_rescaling : simulatedProfit_net 0.2 (bare_trade 0.1 100) = 200%float.
Proof. vm_compute; reflexivity. Qed.

(** Scenario B of the specification: at lot size 0.20 the profits of
    scenario A double, the balance ends at 11000, and the statistics report
    a net profit of 1000.00 and a profit factor of 11.00. *)
Example scenario_B :
  match simulate (data fixed_lot_result) 10000 0.2 with
  | Normal (sim, meta) =>
      map simulatedProfit sim = [Some 200; Some (-100); Some 900]%float /\
      map simulatedBalance sim = [Some 10200; Some 10100; Some 11000]%float /\
      totalNetProfit meta = Some (str "1000.00") /\
      profitFactor meta = Some (str "11.00") /\
      period meta = Some (str "Simulated (2024.01.01 - 2024.01.03)")
  | Throw _ => False
  end.
Proof. vm_compute; repeat split. Qed.

(** The text of a date, of a date before the year 0 and of one after the
    year 9999. *)
Example toISOString_samples :
  toISOString (Some 1704103200123%Z) = Normal (str "2024-01-01T10:00:00.123Z") /\
  toISOString (Some (-1)%Z) = Normal (str "1969-12-31T23:59:59.999Z") /\
  toISOString (Some 951782400000%Z) = Normal (str "2000-02-29T00:00:00.000Z") /\
  toISOString (Some (-62198755200000)%Z) = Normal (str "-000001-01-01T00:00:00.000Z") /\
  toISOString (Some 253402300800000%Z) = Normal (str "+010000-01-01T00:00:00.000Z") /\
  toISOString None = Throw RangeError.
Proof. vm_compute; repeat split. Qed.




(* ===================================================================== *)
(** * The parser: metric lookup, short rows, order, fixed lot *)
(* ===================================================================== *)

Section ParserFacts.

Lemma findIndex_none (A : Type) (p : A -> bool) l :
  (forall x, In x l -> p x = false) -> findIndex p l = (-1)%Z.
Proof.
  induction l as [| x r IH]; intros H; simpl; [reflexivity |].
  rewrite (H x (or_introl eq_refl)), IH by (intros y Hy; apply H; right; exact Hy).
  reflexivity.
Qed.

Lemma findIndex_first (A : Type) (p : A -> bool) pre c post :
  (forall x, In x pre -> p x = false) -> p c = true ->
  findIndex p (pre ++ c :: post) = Z.of_nat (List.length pre).
Proof.
  induction pre as [| x r IH]; intros H Hc; simpl.
  - rewrite Hc; reflexivity.
  - rewrite (H x (or_introl eq_refl)), IH by (auto; intros y Hy; apply H; right; exact Hy).
    destruct (Z.eqb_spec (Z.of_nat (List.length r)) (-1)); simpl List.length; lia.
Qed.

Lemma item_after (A : Type) (pre : list A) c post :
  item (pre ++ c :: post) (Z.of_nat (List.length pre) + 1) = hd_error post.
Proof.
  unfold item.
  destruct (Z.ltb_spec (Z.of_nat (List.length pre) + 1) 0); [lia |].
  replace (Z.to_nat (Z.of_nat (List.length pre) + 1)) with (List.length pre + 1)%nat by lia.
  rewrite nth_error_app2 by lia.
  replace (List.length pre + 1 - List.length pre)%nat with 1%nat by lia.
  destruct post; reflexivity.
Qed.

(** A row too short for the four guarded columns contributes nothing. *)
Lemma process_row_short toLowerCase Date_parse cols row :
  (Z.of_nat (List.length (tr_td row)) <= max_index cols)%Z ->
  process_row toLowerCase Date_parse cols row = Normal None.
Proof.
  intros H; unfold process_row.
  destruct (Z.ltb_spec (max_index cols) (Z.of_nat (List.length (tr_td row)))); [lia | reflexivity].
Qed.

(** ** Order of the events *)

Lemma goes_after_in_order a b :
  valid_date a -> valid_date b ->
  if goes_after compare_dates a b then in_order b a else in_order a b.
Proof.
  unfold valid_date, goes_after, compare_dates, in_order, time_le.
  destruct (date a) as [x |], (date b) as [y |]; try congruence; intros _ _.
  destruct (Z.ltb_spec 0 (x - y)); apply Z.leb_le; lia.
Qed.

Lemma insert_sorted_valid x l :
  Forall valid_date (insert_sorted compare_dates x l) <->
  valid_date x /\ Forall valid_date l.
Proof.
  induction l as [| y r IH]; simpl.
  - split; [intros H; inversion H; auto | intros [H1 H2]; auto].
  - destruct (goes_after compare_dates x y).
    + split.
      * intros H; inversion H as [| ? ? Hy Hr]; subst.
        apply IH in Hr; destruct Hr; auto.
      * intros [Hx H]; inversion H as [| ? ? Hy Hr]; subst.
        constructor; [exact Hy | apply IH; auto].
    + split; [intros H; inversion H; auto | intros [H1 H2]; auto].
Qed.

Lemma insert_sorted_ordered x l :
  valid_date x -> Forall valid_date l -> ordered l ->
  ordered (insert_sorted compare_dates x l).
Proof.
  intros Hx; induction l as [| y r IH]; intros Hv Ho; simpl.
  - constructor.
  - inversion Hv as [| ? ? Hy Hr]; subst.
    pose proof (goes_after_in_order x y Hx Hy) as Hxy.
    destruct (goes_after compare_dates x y).
    + specialize (IH Hr).
      destruct r as [| z r']; simpl in *.
      * constructor; [exact Hxy | constructor].
      * inversion Ho as [| | ? ? ? Hyz Ho']; subst.
        specialize (IH Ho').
        destruct (goes_after compare_dates x z); constructor; auto.
    + constructor; auto.
Qed.

Lemma sort_ordered l :
  Forall valid_date (sort compare_dates l) -> ordered (sort compare_dates l).
Proof.
  induction l as [| x r IH]; simpl; intros H.
  - constructor.
  - apply insert_sorted_valid in H; destruct H as [Hx Hr].
    apply insert_sorted_ordered; auto.
Qed.

Lemma ordered_adjacent l :
  ordered l ->
  forall i a b, nth_error l i = Some a -> nth_error l (S i) = Some b -> in_order a b.
Proof.
  induction 1 as [| a | a b r Hab Ho IH]; intros i x y Hx Hy.
  - destruct i; discriminate.
  - destruct i as [| [| i]]; discriminate.
  - destruct i as [| i]; simpl in *.
    + injection Hx as <-; injection Hy as <-; exact Hab.
    + eapply IH; eauto.
Qed.

(** ** What [processData] returns *)

Lemma processData_result toLowerCase Date_parse doc r :
  processData toLowerCase Date_parse doc = Normal r ->
  exists deals,
    collect_deals toLowerCase Date_parse (detect_columns toLowerCase (doc_tr doc))
                  (doc_tr doc) [] = Normal deals /\
    data r = sort compare_dates deals /\
    fixedLotSize (reportMeta r) = fixed_lot (data r).
Proof.
  unfold processData.
  destruct (collect_deals toLowerCase Date_parse
              (detect_columns toLowerCase (doc_tr doc)) (doc_tr doc) []) as [deals | e];
    simpl; [| discriminate].
  intros H; injection H as <-; exists deals; simpl.
  split; [reflexivity |]. split; [destruct deals; reflexivity | reflexivity].
Qed.

(** ** Strict equality of numbers *)

Lemma SFeqb_true x y :
  SFeqb x y = true -> sf_same x y /\ x <> S754_nan /\ y <> S754_nan.
Proof.
  unfold SFeqb, SFcompare, sf_same.
  destruct x as [[] | [] | | [] m e]; destruct y as [[] | [] | | [] m' e'];
    simpl; try discriminate; intros H;
    try (split; [left; reflexivity | split; discriminate]);
    try (split; [right; split; reflexivity | split; discriminate]).
  - revert H; rewrite Pos.compare_cont_spec; unfold Pos.switch_Eq.
    destruct (Z.compare_spec e e'); try discriminate.
    destruct (Pos.compare_spec m m'); try discriminate.
    intros _; subst; split; [left; reflexivity | split; discriminate].
  - revert H; rewrite Pos.compare_cont_spec; unfold Pos.switch_Eq.
    destruct (Z.compare_spec e e'); try discriminate.
    destruct (Pos.compare_spec m m'); try discriminate.
    intros _; subst; split; [left; reflexivity | split; discriminate].
Qed.

Lemma sf_same_SFeqb x y :
  sf_same x y -> x <> S754_nan -> SFeqb x y = true.
Proof.
  intros [-> | [Hx Hy]] Hn.
  - rewrite SFeqb_refl; destruct y; congruence.
  - destruct x; try discriminate; destruct y; try discriminate; reflexivity.
Qed.

Lemma eqb_common (a b c : number) :
  (a =? c)%float = true -> (b =? c)%float = true -> (a =? b)%float = true.
Proof.
  rewrite !eqb_spec; intros Hac Hbc.
  apply SFeqb_true in Hac; destruct Hac as [Hac [Ha _]].
  apply SFeqb_true in Hbc; destruct Hbc as [Hbc [Hb _]].
  apply sf_same_SFeqb; [| exact Ha].
  destruct Hac as [-> | [Za Zc]]; destruct Hbc as [E | [Zb Zc']].
  - left; symmetry; exact E.
  - right; split; assumption.
  - right; split; [exact Za | rewrite E; exact Zc].
  - right; split; assumption.
Qed.

Lemma positive_eqb_refl (v : number) : (0 <? v)%float = true -> (v =? v)%float = true.
Proof.
  rewrite ltb0_spec, eqb_spec, SFeqb_refl; destruct (Prim2SF v); easy.
Qed.

End ParserFacts.

Lemma ordered_sorted_by_time l : ordered l -> sorted_by_time l = true.
Proof.
  induction 1 as [| a | a b r Hab Ho IH]; try reflexivity.
  simpl in *; rewrite Hab; exact IH.
Qed.

(** C2: the claim is right and the code misses it. The guard of a ledger row
    covers the volume, profit, balance and type columns only; a row that is
    long enough for these but stops before the swap column (or the
    commission or the time column) makes [processData] throw. *)
Theorem C2_short_row_raises :
  forall Date_parse,
    processData toLowerCase_ascii Date_parse short_row_report = Throw TypeError.
Proof. intros Date_parse; vm_compute; reflexivity. Qed.

(** C4. When every trade of the returned events has the volume of the first
    trade, [fixedLotSize] is that volume; when two trades differ in volume,
    [fixedLotSize] is not set. *)
Theorem C4_fixed_lot_flag :
  forall toLowerCase Date_parse doc r,
    processData toLowerCase Date_parse doc = Normal r ->
    let trades := filter (fun d => (0 <? volume d)%float) (data r) in
    (forall first rest,
       trades = first :: rest ->
       Forall (fun d => (volume d =? volume first)%float = true) rest ->
       fixedLotSize (reportMeta r) = Some (volume first)) /\
    (forall d1 d2,
       In d1 trades -> In d2 trades -> (volume d1 =? volume d2)%float = false ->
       fixedLotSize (reportMeta r) = None).
Proof.
  intros toLowerCase Date_parse doc r Hr trades.
  destruct (processData_result _ _ _ _ Hr) as (deals & _ & _ & Hfix).
  rewrite Hfix; unfold fixed_lot; fold trades.
  split.
  - intros first rest E Hall; rewrite E.
    assert (Hfirst : (volume first =? volume first)%float = true).
    { apply positive_eqb_refl.
      assert (Hin : In first trades) by (rewrite E; left; reflexivity).
      apply filter_In in Hin; apply Hin. }
    replace (forallb _ (first :: rest)) with true; [reflexivity |].
    symmetry; apply forallb_forall; intros d [<- | Hd]; [exact Hfirst |].
    rewrite Forall_forall in Hall; apply Hall, Hd.
  - intros d1 d2 H1 H2 Hne.
    destruct trades as [| first rest]; [reflexivity |].
    destruct (forallb _ (first :: rest)) eqn:Hall; [| reflexivity].
    rewrite forallb_forall in Hall.
    rewrite (eqb_common _ _ _ (Hall d1 H1) (Hall d2 H2)) in Hne; discriminate.
Qed.

Lemma C4_fixed_lot_flag_witness :
  fixedLotSize (reportMeta fixed_lot_result) = Some 0.1%float /\
  fixedLotSize (reportMeta mixed_lot_result) = None.
Proof.
  split.
  - destruct (C4_fixed_lot_flag toLowerCase_ascii Date_parse_utc fixed_lot_report
                fixed_lot_result eq_refl) as [H _].
    pose (trades := filter (fun d => (0 <? volume d)%float) (data fixed_lot_result)).
    apply (H (hd (balance_event 0) trades) (tl trades)).
    + vm_compute; reflexivity.
    + vm_compute; repeat constructor.
  - destruct (C4_fixed_lot_flag toLowerCase_ascii Date_parse_utc mixed_lot_report
                mixed_lot_result eq_refl) as [_ H].
    pose (trades := filter (fun d => (0 <? volume d)%float) (data mixed_lot_result)).
    apply (H (nth 0 trades (balance_event 0)) (nth 1 trades (balance_event 0))).
    + vm_compute; auto.
    + vm_compute; auto.
    + vm_compute; reflexivity.
Defined.

(** Scenario A of the specification: three events in ascending order of
    time, the deposit, the fixed lot size and the reported net profit. *)
Example scenario_A :
  processData toLowerCase_ascii Date_parse_utc fixed_lot_report = Normal fixed_lot_result /\
  map time (data fixed_lot_result) =
    map str ["2024.01.01 10:00:00"; "2024.01.02 10:00:00"; "2024.01.03 10:00:00"]%string /\
  map profit (data fixed_lot_result) = [100; -50; 450]%float /\
  initialDeposit fixed_lot_result = 10000%float /\
  fixedLotSize (reportMeta fixed_lot_result) = Some 0.1%float /\
  totalNetProfit (reportMeta fixed_lot_result) = Some (str "500.00").
Proof. vm_compute; repeat split. Qed.

(** C7, as amended. When [processData] returns and the date of every
    returned event is valid, the events are in ascending order of time:
    every adjacent pair satisfies [events[i].date <= events[i+1].date]. *)
Theorem C7_sorted_when_dates_valid :
  forall toLowerCase Date_parse doc r,
    processData toLowerCase Date_parse doc = Normal r ->
    Forall (fun d => date d <> None) (data r) ->
    sorted_by_time (data r) = true /\
    (forall i a b,
       nth_error (data r) i = Some a -> nth_error (data r) (S i) = Some b ->
       time_le a b = true).
Proof.
  intros toLowerCase Date_parse doc r Hr Hvalid.
  destruct (processData_result _ _ _ _ Hr) as (deals & _ & Hdata & _).
  rewrite Hdata in *.
  pose proof (sort_ordered deals Hvalid) as Ho.
  split; [apply ordered_sorted_by_time, Ho | apply ordered_adjacent, Ho].
Qed.

Lemma C7_sorted_when_dates_valid_witness :
  sorted_by_time (data fixed_lot_result) = true.
Proof.
  apply (C7_sorted_when_dates_valid toLowerCase_ascii Date_parse_utc fixed_lot_report
           fixed_lot_result eq_refl).
  vm_compute; repeat constructor; discriminate.
Defined.

(** C7 as stated fails: a row dated 2024.99.99 passes the pattern of the
    time column, its date is invalid, and no order of the two returned
    events satisfies [<=] on the adjacent pair. *)
Lemma C7_invalid_date_counterexample :
  let r := returned (processData toLowerCase_ascii Date_parse_utc invalid_date_report) in
  processData toLowerCase_ascii Date_parse_utc invalid_date_report = Normal r /\
  map date (data r) = [Some 1704103200000%Z; None] /\
  sorted_by_time (data r) = false /\
  sorted_by_time (rev (data r)) = false.
Proof. vm_compute; repeat split. Qed.

(** C9, as amended. When no cell's trimmed text starts with the label the
    value is the string "0"; otherwise it is the trimmed text of the cell
    that follows the first such cell, and [undefined] when that cell is the
    last one. No case throws. *)
Theorem C9_metric_value :
  forall (cells : list jsstring) (label : jsstring),
    ((forall c, In c cells -> startsWith label (trim c) = false) ->
     getVal cells label = Some (str "0")) /\
    (forall pre c post,
       cells = pre ++ c :: post ->
       (forall x, In x pre -> startsWith label (trim x) = false) ->
       startsWith label (trim c) = true ->
       getVal cells label = option_map trim (hd_error post)).
Proof.
  intros cells label; split.
  - intros H; unfold getVal.
    rewrite (findIndex_none _ (fun c => startsWith label (trim c)) cells H); reflexivity.
  - intros pre c post -> Hpre Hc; unfold getVal.
    rewrite (findIndex_first _ (fun c => startsWith label (trim c)) pre c post Hpre Hc).
    rewrite item_after.
    destruct (Z.eqb_spec (Z.of_nat (List.length pre)) (-1)); [lia | reflexivity].
Qed.

Lemma C9_metric_value_witness :
  getVal (map str ["Gross Profit:"; "550.00"; "Profit Factor:"; " 11.00 "]%string)
         (str "Profit Factor:") = Some (str "11.00") /\
  getVal (map str ["Gross Profit:"; "550.00"]%string) (str "Profit Factor:") = Some (str "0").
Proof.
  split.
  - destruct (C9_metric_value
                (map str ["Gross Profit:"; "550.00"; "Profit Factor:"; " 11.00 "]%string)
                (str "Profit Factor:")) as [_ H].
    apply (H (map str ["Gross Profit:"; "550.00"]%string) (str "Profit Factor:")
             [str " 11.00 "]); [reflexivity | | reflexivity].
    intros x [<- | [<- | []]]; reflexivity.
  - destruct (C9_metric_value (map str ["Gross Profit:"; "550.00"]%string)
                (str "Profit Factor:")) as [H _].
    apply H. intros x [<- | [<- | []]]; reflexivity.
Defined.

(** C9 as stated fails: the value is not the text of the following cell but
    that text trimmed, and a label in the last cell has no following cell:
    its value is [undefined], neither a text nor "0". *)
Lemma C9_following_cell_counterexample :
  getVal [str "Profit Factor:"; str " 11.00 "] (str "Profit Factor:") = Some (str "11.00") /\
  Some (str "11.00") <> Some (str " 11.00 ") /\
  getVal [str "Profit Factor:"] (str "Profit Factor:") = None.
Proof. vm_compute; repeat split; discriminate. Qed.

(* ===================================================================== *)
(** * The parser: numeric cells *)
(* ===================================================================== *)

Section CleanValFacts.
























End CleanValFacts.



(** Only the first comma becomes the decimal point. *)
Example cleanVal_two_commas : cleanVal (Some (str "1,234,567")) = 1.234%float.
Proof. vm_compute; reflexivity. Qed.

(* ===================================================================== *)
(** * More facts about the order of binary64 numbers *)
(* ===================================================================== *)

Section OrderFacts.
Open Scope float_scope.

Lemma SFltb_irrefl x : SFltb x x = false.
Proof.
  unfold SFltb; destruct x as [[] | [] | | [] m e]; simpl; try reflexivity;
    rewrite Z.compare_refl, Pos.compare_cont_refl; reflexivity.
Qed.

Lemma SFcompare_finite_lt s m e m' e' :
  SFcompare (S754_finite s m e) (S754_finite s m' e') = Some Lt <->
  if s then (e' < e \/ e' = e /\ (m' < m)%positive)%Z
  else (e < e' \/ e = e' /\ (m < m')%positive)%Z.
Proof.
  unfold SFcompare; rewrite Pos.compare_cont_spec; unfold Pos.switch_Eq.
  destruct s; destruct (Z.compare_spec e e') as [Ez | Ez | Ez];
    destruct (Pos.compare_spec m m') as [Em | Em | Em];
    simpl; (split; [intros K; try discriminate; try lia; try (right; split; lia); try (left; lia)
                   | intros K; try reflexivity; exfalso; lia]).
Qed.

Lemma SFltb_lt x y : SFltb x y = true <-> SFcompare x y = Some Lt.
Proof. unfold SFltb; destruct (SFcompare x y) as [[] |]; split; congruence. Qed.

Lemma SFltb_trans x y z : SFltb x y = true -> SFltb y z = true -> SFltb x z = true.
Proof.
  rewrite !SFltb_lt.
  destruct x as [[] | [] | | [] mx ex]; destruct y as [[] | [] | | [] my ey];
    destruct z as [[] | [] | | [] mz ez]; intros H1 H2;
    try solve [reflexivity | simpl in *; congruence].
  - apply SFcompare_finite_lt in H1, H2; apply SFcompare_finite_lt.
    destruct H1 as [H1 | [H1 H1']], H2 as [H2 | [H2 H2']]; subst;
      solve [left; lia | right; split; [reflexivity | lia]].
  - apply SFcompare_finite_lt in H1, H2; apply SFcompare_finite_lt.
    destruct H1 as [H1 | [H1 H1']], H2 as [H2 | [H2 H2']]; subst;
      solve [left; lia | right; split; [reflexivity | lia]].
Qed.

Lemma SFltb_asym x y : SFltb x y = true -> SFltb y x = false.
Proof.
  intros H; destruct (SFltb y x) eqn:E; [| reflexivity].
  pose proof (SFltb_trans _ _ _ H E) as C; rewrite SFltb_irrefl in C; discriminate.
Qed.

Lemma ltb_irrefl a : (a <? a) = false.
Proof. rewrite ltb_spec; apply SFltb_irrefl. Qed.

Lemma ltb_trans a b c : (a <? b) = true -> (b <? c) = true -> (a <? c) = true.
Proof. rewrite !ltb_spec; apply SFltb_trans. Qed.

Lemma ltb_asym a b : (a <? b) = true -> (b <? a) = false.
Proof. rewrite !ltb_spec; apply SFltb_asym. Qed.

Lemma nan_ltb a : (nan <? a) = false.
Proof. rewrite ltb_spec; reflexivity. Qed.

Lemma ltb_nan a : (a <? nan) = false.
Proof.
  rewrite ltb_spec; change (Prim2SF nan) with S754_nan.
  unfold SFltb; destruct (Prim2SF a); reflexivity.
Qed.

(** [Math.max(a, b)] is never below [a]. *)
Lemma Math_max_lower a b : (Math_max a b <? a) = false.
Proof.
  unfold Math_max.
  destruct (isNaN a || isNaN b); [apply nan_ltb |].
  destruct (a <? b) eqn:Hab; [apply ltb_asym, Hab |].
  destruct (b <? a) eqn:Hba; [apply ltb_irrefl |].
  destruct (get_sign a); [exact Hba | apply ltb_irrefl].
Qed.

(** [Math.min] *)
Lemma Math_min_never_positive a b :
  (0 <? a) = false -> (0 <? Math_min a b) = false.
Proof.
  unfold Math_min; intros Ha.
  destruct (isNaN a || isNaN b) eqn:Hn; [apply ltb_nan |].
  apply orb_false_elim in Hn; destruct Hn as [Hna Hnb].
  destruct (a <? b) eqn:Hab; [exact Ha |].
  destruct (b <? a) eqn:Hba.
  - destruct (0 <? b) eqn:E; [| reflexivity].
    rewrite (ltb_trans _ _ _ E Hba) in Ha; discriminate.
  - destruct (get_sign a); [exact Ha |].
    revert Ha Hna Hnb Hab Hba.
    rewrite !ltb0_spec, !isNaN_spec, !ltb_spec; unfold SFltb; by_classes a b.
Qed.

(** Sums of numbers that are not negative. *)
Lemma add_never_negative a b :
  (a <? 0) = false -> (b <? 0) = false -> (a + b <? 0) = false.
Proof.
  rewrite !lt0b_spec, add_spec.
  destruct (Prim2SF a) as [sa | [] | | [] ma ea] eqn:Ea; try discriminate;
    destruct (Prim2SF b) as [sb | [] | | [] mb eb] eqn:Eb; try discriminate;
    intros _ _; try reflexivity.
  - destruct sa, sb; reflexivity.
  - pose proof (SFadd_nonneg prec emax (S754_finite false ma ea) (S754_finite false mb eb)
                  eq_refl eq_refl) as H.
    unfold SF64add; destruct (SFadd prec emax _ _) as [s | [] | | [] m e];
      try discriminate; reflexivity.
Qed.

Lemma abs_never_negative a : (Math_abs a <? 0) = false.
Proof.
  unfold Math_abs; rewrite lt0b_spec, abs_spec.
  destruct (Prim2SF a) as [s | s | | s m e]; reflexivity.
Qed.

End OrderFacts.

(* ===================================================================== *)
(** * The statistics engine: counts, streaks, signs *)
(* ===================================================================== *)

Section TallyFacts.
Open Scope float_scope.

(** The tally and the streaks after one event. *)
Lemma step_trade st d :
  is_trade d = true ->
  tally (step st d) =
    fst (if 0 <=? event_profit d then win (event_profit d) (tally st) (streaks st)
         else loss (event_profit d) (tally st) (streaks st)) /\
  streaks (step st d) =
    update_streak_maxima
      (snd (if 0 <=? event_profit d then win (event_profit d) (tally st) (streaks st)
            else loss (event_profit d) (tally st) (streaks st))).
Proof.
  unfold is_trade, event_profit, step; intros H; rewrite H.
  destruct (0 <=? nullish (simulatedProfit d) (profit d)); split; reflexivity.
Qed.

Lemma step_non_trade st d :
  is_trade d = false ->
  tally (step st d) = tally st /\ streaks (step st d) = streaks st.
Proof. unfold is_trade, step; intros H; rewrite H; split; reflexivity. Qed.

(** An invariant of the tally and the streaks that wins, losses and other
    events keep holds after the pass. *)
Lemma tally_invariant (P : Tally -> Streaks -> Prop) (Q : DataPoint -> Prop) :
  (forall t s d, Q d -> is_trade d = true -> (0 <=? event_profit d) = true -> P t s ->
     P (fst (win (event_profit d) t s)) (update_streak_maxima (snd (win (event_profit d) t s)))) ->
  (forall t s d, Q d -> is_trade d = true -> (0 <=? event_profit d) = false -> P t s ->
     P (fst (loss (event_profit d) t s)) (update_streak_maxima (snd (loss (event_profit d) t s)))) ->
  forall events st,
    Forall Q events -> P (tally st) (streaks st) ->
    P (tally (fold_left step events st)) (streaks (fold_left step events st)).
Proof.
  intros Hwin Hloss events st Hq Hp.
  apply (pass_invariant (fun st => P (tally st) (streaks st)) Q); auto.
  clear st Hq Hp; intros st d Hd Hp.
  destruct (is_trade d) eqn:Ht.
  - destruct (step_trade st d Ht) as [-> ->].
    destruct (0 <=? event_profit d) eqn:Hw; auto.
  - destruct (step_non_trade st d Ht) as [-> ->]; exact Hp.
Qed.

Lemma count_wins_losses events st :
  wins (tally (fold_left step events st)) =
    (wins (tally st) + List.length (filter is_win events))%nat /\
  losses (tally (fold_left step events st)) =
    (losses (tally st) + List.length (filter is_loss events))%nat.
Proof.
  revert st; induction events as [| d rest IH]; intros st; simpl.
  - split; lia.
  - destruct (IH (step st d)) as [-> ->].
    change (is_win d) with (is_trade d && (0 <=? event_profit d)).
    change (is_loss d) with (is_trade d && negb (0 <=? event_profit d)).
    destruct (is_trade d) eqn:Ht.
    + destruct (step_trade st d Ht) as [-> _].
      destruct (0 <=? event_profit d); simpl; split; lia.
    + destruct (step_non_trade st d Ht) as [-> _]; simpl; split; lia.
Qed.

Lemma filter_win_loss events :
  (List.length (filter is_win events) + List.length (filter is_loss events))%nat =
  List.length (filter is_trade events).
Proof.
  induction events as [| d rest IH]; simpl; [reflexivity |].
  change (is_win d) with (is_trade d && (0 <=? event_profit d)).
  change (is_loss d) with (is_trade d && negb (0 <=? event_profit d)).
  destruct (is_trade d), (0 <=? event_profit d); simpl; lia.
Qed.

End TallyFacts.

(** X1. Every trade is counted once: the wins are the trades with
    [profit >= 0], the losses are all other trades (a [NaN] profit
    included), and together they are the trade count the summary reports. *)
Theorem X1_every_trade_counted_once :
  forall (events : list DataPoint) (dep : number),
    let t := tally (pass events dep) in
    wins t = List.length (filter is_win events) /\
    losses t = List.length (filter is_loss events) /\
    (wins t + losses t)%nat = List.length (filter is_trade events) /\
    (events <> [] ->
     totalTrades (calculateStats events dep) = of_count (wins t + losses t)).
Proof.
  intros events dep t.
  destruct (count_wins_losses events (init dep)) as [Hw Hl]; simpl in Hw, Hl.
  fold (pass events dep) in Hw, Hl; fold t in Hw, Hl.
  assert (Hsum : (wins t + losses t)%nat = List.length (filter is_trade events))
    by (rewrite Hw, Hl; apply filter_win_loss).
  repeat split; auto.
  intros Hne; destruct events as [| d rest]; [congruence |].
  unfold calculateStats; cbn [totalTrades]; fold t.
  rewrite Hsum; reflexivity.
Qed.

Lemma X1_every_trade_counted_once_witness :
  totalTrades (calculateStats [trade_event 0.1 100 10100; balance_event 10100;
                               trade_event 0.1 (-50) 10050] 10000) = 2%float.
Proof.
  destruct (X1_every_trade_counted_once
              [trade_event 0.1 100 10100; balance_event 10100; trade_event 0.1 (-50) 10050]
              10000) as (_ & _ & _ & H).
  rewrite H by discriminate. vm_compute; reflexivity.
Defined.

Section StreakFacts.
Open Scope float_scope.

Lemma streaks_consistent_pass events dep :
  streaks_consistent (tally (pass events dep)) (streaks (pass events dep)).
Proof.
  unfold pass.
  apply (tally_invariant streaks_consistent (fun _ => True)).
  - intros t s d _ _ _; unfold streaks_consistent; simpl; lia.
  - intros t s d _ _ _; unfold streaks_consistent; simpl; lia.
  - apply Forall_True.
  - unfold streaks_consistent; simpl; lia.
Qed.

Lemma signs_kept_pass events dep :
  signs_kept (tally (pass events dep)) (streaks (pass events dep)).
Proof.
  unfold pass.
  apply (tally_invariant signs_kept (fun _ => True)).
  - intros t s d _ _ Hp (H1 & H2 & H3 & H4 & H5 & H6 & H7).
    unfold signs_kept; simpl.
    assert (Hc : (0 <=? currentWin_d s + event_profit d) = true) by (apply add_nonneg; auto).
    repeat split; auto.
    + apply add_nonneg; auto.
    + apply Math_max_nonneg; auto using nonneg_not_nan.
    + apply Math_max_nonneg; auto using nonneg_not_nan.
    + apply Math_min_never_positive; auto.
  - intros t s d _ _ Hp (H1 & H2 & H3 & H4 & H5 & H6 & H7).
    unfold signs_kept; simpl.
    repeat split; auto.
    + apply add_never_negative; auto using abs_never_negative.
    + apply Math_min_never_positive; auto.
    + apply Math_max_nonneg; auto.
    + apply Math_min_never_positive; auto.
  - apply Forall_True.
  - unfold signs_kept; simpl; repeat split; reflexivity.
Qed.

Lemma no_win_pass events dep :
  Forall (fun d => is_win d = false) events ->
  no_win_yet (tally (pass events dep)) (streaks (pass events dep)).
Proof.
  intros H; unfold pass.
  apply (tally_invariant no_win_yet (fun d => is_win d = false)); auto.
  - intros t s d Hd Ht Hp _; unfold is_win in Hd; rewrite Ht, Hp in Hd; discriminate.
  - intros t s d _ _ _ (H1 & H2 & H3 & H4 & H5 & H6 & H7 & H8).
    unfold no_win_yet; simpl; rewrite H6, H8; repeat split; auto.
  - unfold no_win_yet; simpl; repeat split; reflexivity.
Qed.

Lemma no_loss_pass events dep :
  Forall (fun d => is_loss d = false) events ->
  no_loss_yet (tally (pass events dep)) (streaks (pass events dep)).
Proof.
  intros H; unfold pass.
  apply (tally_invariant no_loss_yet (fun d => is_loss d = false)); auto.
  - intros t s d _ _ _ (H1 & H2 & H3 & H4 & H5 & H6 & H7 & H8).
    unfold no_loss_yet; simpl; rewrite H6, H8; repeat split; auto.
  - intros t s d Hd Ht Hp _; unfold is_loss in Hd; rewrite Ht, Hp in Hd; discriminate.
  - unfold no_loss_yet; simpl; repeat split; reflexivity.
Qed.

Lemma sub_zero a : a - 0 = a.
Proof.
  apply Prim2SF_inj; rewrite sub_spec, Prim2SF_zero.
  destruct (Prim2SF a) as [[] | [] | | [] m e]; reflexivity.
Qed.

End StreakFacts.

(** X2. The streak counters are consistent with the counts: the longest win
    streak is at most the number of wins and the longest loss streak at most
    the number of losses, the running streaks are at most the longest ones,
    and a win streak and a loss streak never run at the same time. *)
Theorem X2_streak_counters_consistent :
  forall (events : list DataPoint) (dep : number),
    let t := tally (pass events dep) in
    let s := streaks (pass events dep) in
    (maxConsecWinsCount s <= wins t)%nat /\
    (maxConsecLossesCount s <= losses t)%nat /\
    (currentWins s <= maxConsecWinsCount s)%nat /\
    (currentLosses s <= maxConsecLossesCount s)%nat /\
    (currentWins s = 0%nat \/ currentLosses s = 0%nat).
Proof.
  intros events dep t s.
  destruct (streaks_consistent_pass events dep) as (H1 & H2 & H3 & H4 & H5 & H6 & H7).
  repeat split; assumption.
Qed.

(** X3. The signs of what the summary reports: gross profit, largest profit
    and the largest win streak in money are [>= 0]; gross loss is never
    negative and the largest loss and the largest loss streak in money are
    never positive (each is of that sign or [NaN]). *)
Theorem X3_signs_of_the_summary :
  forall (events : list DataPoint) (dep : number),
    let t := tally (pass events dep) in
    let s := streaks (pass events dep) in
    (0 <=? t_grossProfit t)%float = true /\
    (0 <=? maxProfit t)%float = true /\
    (0 <=? maxConsecWins_d s)%float = true /\
    (t_grossLoss t <? 0)%float = false /\
    (0 <? maxLoss t)%float = false /\
    (0 <? maxConsecLosses_d s)%float = false.
Proof.
  intros events dep t s.
  destruct (signs_kept_pass events dep) as (H1 & H2 & H3 & H4 & H5 & H6 & H7).
  repeat split; assumption.
Qed.

(** X4. When no trade has a profit [>= 0], every statistic of the wins is
    reported as zero: gross profit, largest profit, average profit and the
    largest win streak read "0.00", the streak count reads "0", and the
    average is not a division by the zero count. *)
Theorem X4_no_wins_reads_zero :
  forall (events : list DataPoint) (dep : number),
    events <> [] ->
    Forall (fun d => is_win d = false) events ->
    let meta := calculateStats events dep in
    grossProfit meta = Some (str "0.00") /\
    largestProfit meta = Some (str "0.00") /\
    avgProfit meta = Some (str "0.00") /\
    maxConsecWins_usd meta = Some (str "0.00") /\
    maxConsecProfitCount meta = Some (str "0").
Proof.
  intros events dep Hne Hall meta.
  destruct (no_win_pass events dep Hall) as (H1 & H2 & H3 & H4 & H5 & H6 & H7 & H8).
  destruct events as [| d rest]; [congruence |].
  unfold meta, calculateStats;
    cbn [grossProfit largestProfit avgProfit maxConsecWins_usd maxConsecProfitCount].
  rewrite H1, H2, H3, H6, H8; repeat split.
Qed.

Lemma X4_no_wins_reads_zero_witness :
  avgProfit (calculateStats [trade_event 0.1 (-50) 9950; balance_event 9950] 10000)
  = Some (str "0.00").
Proof.
  apply (X4_no_wins_reads_zero [trade_event 0.1 (-50) 9950; balance_event 9950] 10000).
  - discriminate.
  - repeat constructor.
Defined.

(** X5. When every trade has a profit [>= 0], every statistic of the losses
    is reported as zero ("0.00", and "0" for the streak count), and the net
    profit, the gross profit and the profit factor are one and the same
    text. *)
Theorem X5_no_losses_reads_zero :
  forall (events : list DataPoint) (dep : number),
    events <> [] ->
    Forall (fun d => is_loss d = false) events ->
    let meta := calculateStats events dep in
    grossLoss meta = Some (str "0.00") /\
    largestLoss meta = Some (str "0.00") /\
    avgLoss meta = Some (str "0.00") /\
    maxConsecLosses_usd meta = Some (str "0.00") /\
    maxConsecLossCount meta = Some (str "0") /\
    totalNetProfit meta = grossProfit meta /\
    profitFactor meta = grossProfit meta.
Proof.
  intros events dep Hne Hall meta.
  destruct (no_loss_pass events dep Hall) as (H1 & H2 & H3 & H4 & H5 & H6 & H7 & H8).
  destruct events as [| d rest]; [congruence |].
  unfold meta, calculateStats, profit_factor;
    cbn [grossLoss largestLoss avgLoss maxConsecLosses_usd maxConsecLossCount
         totalNetProfit grossProfit profitFactor].
  rewrite H1, H2, H3, H6, H8, sub_zero; repeat split.
Qed.

Lemma X5_no_losses_reads_zero_witness :
  totalNetProfit (calculateStats [trade_event 0.1 100 10100; trade_event 0.1 450 10550] 10000)
  = Some (str "550.00").
Proof.
  destruct (X5_no_losses_reads_zero
              [trade_event 0.1 100 10100; trade_event 0.1 450 10550] 10000) as (_ & _ & _ & _ & _ & H & _).
  - discriminate.
  - repeat constructor.
  - rewrite H; vm_compute; reflexivity.
Defined.

Section PassFacts.
Open Scope float_scope.

Lemma step_same_tally st st' d :
  tally st = tally st' -> streaks st = streaks st' ->
  tally (step st d) = tally (step st' d) /\ streaks (step st d) = streaks (step st' d).
Proof.
  intros Ht Hs; unfold step; rewrite Ht, Hs.
  destruct (0 <? volume d); [| split; reflexivity].
  destruct (if 0 <=? nullish (simulatedProfit d) (profit d)
            then win _ (tally st') (streaks st')
            else loss _ (tally st') (streaks st')); split; reflexivity.
Qed.

Lemma pass_trades_only events st st' :
  tally st = tally st' -> streaks st = streaks st' ->
  tally (fold_left step events st) = tally (fold_left step (filter is_trade events) st') /\
  streaks (fold_left step events st) = streaks (fold_left step (filter is_trade events) st').
Proof.
  revert st st'; induction events as [| d rest IH]; intros st st' Ht Hs; simpl.
  - split; assumption.
  - destruct (is_trade d) eqn:E; simpl.
    + destruct (step_same_tally st st' d Ht Hs) as [Ht' Hs']; apply IH; assumption.
    + destruct (step_non_trade st d E) as [Ht' Hs'].
      apply IH; [rewrite Ht' | rewrite Hs']; assumption.
Qed.

(** The peak never comes down. *)
Lemma peak_step_keeps st d x :
  (peakBalance (drawdown st) <? x) = false ->
  (peakBalance (drawdown (step st d)) <? x) = false.
Proof.
  intros H; rewrite drawdown_step; unfold update_drawdown.
  destruct (peakBalance (drawdown st) <? event_balance d) eqn:E; simpl; [| exact H].
  destruct (event_balance d <? x) eqn:E'; [| reflexivity].
  rewrite (ltb_trans _ _ _ E E') in H; discriminate.
Qed.

Lemma peak_pass_keeps events st x :
  (peakBalance (drawdown st) <? x) = false ->
  (peakBalance (drawdown (fold_left step events st)) <? x) = false.
Proof.
  revert st; induction events as [| d rest IH]; intros st H; simpl; auto.
  apply IH, peak_step_keeps, H.
Qed.

Lemma peak_step_covers st d :
  (peakBalance (drawdown (step st d)) <? event_balance d) = false.
Proof.
  rewrite drawdown_step; unfold update_drawdown.
  destruct (peakBalance (drawdown st) <? event_balance d) eqn:E; simpl;
    [apply ltb_irrefl | exact E].
Qed.

Lemma peak_pass_covers events st :
  Forall (fun d => (peakBalance (drawdown (fold_left step events st)) <? event_balance d) = false)
         events.
Proof.
  revert st; induction events as [| d rest IH]; intros st; simpl; constructor.
  - apply peak_pass_keeps, peak_step_covers.
  - apply IH.
Qed.

Lemma step_stats_point st d : step st (stats_point d) = step st d.
Proof.
  unfold step, stats_point; simpl.
  destruct (simulatedProfit d), (simulatedBalance d); reflexivity.
Qed.

Lemma pass_stats_point events st :
  fold_left step (map stats_point events) st = fold_left step events st.
Proof.
  revert st; induction events as [| d rest IH]; intros st; simpl; [reflexivity |].
  rewrite step_stats_point; apply IH.
Qed.

Lemma filter_stats_point events :
  List.length (filter (fun d => 0 <? volume d) (map stats_point events)) =
  List.length (filter (fun d => 0 <? volume d) events).
Proof.
  induction events as [| d rest IH]; simpl; [reflexivity |].
  destruct (0 <? volume d); simpl; rewrite IH; reflexivity.
Qed.

End PassFacts.

(** X6. Only trades enter the win and loss accounting: the tally and the
    streaks of a sequence are those of its trades alone, whatever the other
    events and whatever the starting balance. *)
Theorem X6_accounting_reads_trades_only :
  forall (events : list DataPoint) (dep dep' : number),
    tally (pass events dep) = tally (pass (filter is_trade events) dep') /\
    streaks (pass events dep) = streaks (pass (filter is_trade events) dep').
Proof.
  intros events dep dep'; unfold pass; apply pass_trades_only; reflexivity.
Qed.

(** X7. After the pass the running peak is below neither the starting
    balance nor the balance of any event. *)
Theorem X7_peak_covers_every_balance :
  forall (events : list DataPoint) (dep : number),
    let peak := peakBalance (drawdown (pass events dep)) in
    (peak <? dep)%float = false /\
    Forall (fun d => (peak <? event_balance d)%float = false) events.
Proof.
  intros events dep peak; split.
  - apply peak_pass_keeps; simpl; apply ltb_irrefl.
  - apply peak_pass_covers.
Qed.

(** X8. The statistics read the simulated profit and balance of an event
    when it has them: copying them over the standard fields first, as the
    simulation component does, changes nothing in the summary. *)
Theorem X8_statistics_read_simulated_fields :
  forall (events : list DataPoint) (dep : number),
    calculateStats (map stats_point events) dep = calculateStats events dep.
Proof.
  intros events dep; destruct events as [| d rest]; [reflexivity |].
  unfold calculateStats, pass.
  rewrite pass_stats_point.
  change (stats_point d :: map stats_point rest) with (map stats_point (d :: rest)).
  rewrite filter_stats_point; reflexivity.
Qed.

(* ===================================================================== *)
(** * The resimulation: scaling, the simulated sequence, the lot size *)
(* ===================================================================== *)





Section SimDataFacts.
Open Scope float_scope.

Lemma simData_events lot dep data :
  Forall2 (fun d s => same_event d s /\
                      simulatedProfit s = Some (simulatedProfit_of lot d))
          data (simData lot dep data).
Proof.
  revert dep; induction data as [| d rest IH]; intros dep; simpl; constructor.
  - unfold same_event; simpl; repeat split.
  - apply IH.
Qed.

Lemma simData_trades lot dep data :
  List.length (filter is_trade (simData lot dep data)) = List.length (filter is_trade data).
Proof.
  revert dep; induction data as [| d rest IH]; intros dep; simpl; [reflexivity |].
  change (is_trade (with_simulation d (simulatedProfit_of lot d)
                                    (dep + simulatedProfit_of lot d)))
    with (is_trade d).
  destruct (is_trade d); simpl; rewrite IH; reflexivity.
Qed.

(** Each simulated balance is the one before, or the deposit, plus the
    simulated profit of the event. *)
Lemma simData_balances lot dep data :
  forall i s,
    nth_error (simData lot dep data) i = Some s ->
    simulatedBalance s =
    Some (match i with
          | O => dep
          | S j => match nth_error (simData lot dep data) j with
                   | Some prev => nullish (simulatedBalance prev) 0
                   | None => 0
                   end
          end + nullish (simulatedProfit s) 0).
Proof.
  revert dep; induction data as [| d rest IH]; intros dep i s H.
  - destruct i; discriminate.
  - destruct i as [| j]; simpl in H.
    + injection H as <-; reflexivity.
    + rewrite (IH _ j s H).
      destruct j as [| k]; simpl; [reflexivity |].
      destruct rest; reflexivity.
Qed.

End SimDataFacts.

(** X11. The simulated sequence has one event for each event of the report,
    in the same order, with every field of the original kept and the new
    profit of the transform added; it has as many trades as the report; and
    each simulated balance is the one before it (the deposit for the first
    event) plus the simulated profit of the event. *)
Theorem X11_simulated_sequence :
  forall (lot dep : number) (data : list DataPoint),
    let sim := simData lot dep data in
    Forall2 (fun d s => same_event d s /\
                        simulatedProfit s = Some (simulatedProfit_of lot d)) data sim /\
    List.length sim = List.length data /\
    List.length (filter is_trade sim) = List.length (filter is_trade data) /\
    (forall i s,
       nth_error sim i = Some s ->
       simulatedBalance s =
       Some (match i with
             | O => dep
             | S j => match nth_error sim j with
                      | Some prev => nullish (simulatedBalance prev) 0
                      | None => 0
                      end
             end + nullish (simulatedProfit s) 0)%float).
Proof.
  intros lot dep data sim.
  pose proof (simData_events lot dep data) as H.
  split; [exact H |].
  split; [symmetry; eapply Forall2_length; exact H |].
  split; [apply simData_trades | apply simData_balances].
Qed.

Section LotSizeFacts.
Open Scope float_scope.




Lemma positive_not_nan x : (0 <? x) = true -> isNaN x = false.
Proof.
  rewrite ltb0_spec, isNaN_spec; destruct (Prim2SF x) as [s | [] | | [] m e]; easy.
Qed.

Lemma currentLotSize_truthy x : truthy (currentLotSize x) = true.
Proof.
  unfold currentLotSize, or_else; destruct (truthy x) eqn:E; [exact E | reflexivity].
Qed.

Lemma truthy_spec x : truthy x = true <-> isNaN x = false /\ (x =? 0) = false.
Proof.
  unfold truthy; destruct (isNaN x), (x =? 0); simpl; split; intros H;
    try discriminate; try (destruct H; discriminate); auto.
Qed.

End LotSizeFacts.

(* ===================================================================== *)
(** * The parser: when it returns, and what it returns *)
(* ===================================================================== *)

Section ReturnFacts.
Open Scope float_scope.

Lemma findIndex_range (A : Type) (p : A -> bool) l :
  (-1 <= findIndex p l < Z.of_nat (List.length l))%Z.
Proof.
  induction l as [| x r IH]; simpl; [lia |].
  destruct (p x); [lia |].
  destruct (Z.eqb_spec (findIndex p r) (-1)); lia.
Qed.

Lemma override_lower found current lo :
  (-1 <= found)%Z -> (lo <= 0)%Z -> (lo <= current)%Z -> (lo <= override found current)%Z.
Proof.
  intros Hf Hlo Hc; unfold override.
  destruct (Z.eqb_spec found (-1)); simpl; lia.
Qed.

(** The five guarded or time columns are never negative; swap and commission
    are [-1] or more. *)
Lemma detect_columns_lower toLowerCase rows :
  let cols := detect_columns toLowerCase rows in
  (0 <= volIdx cols /\ 0 <= profitIdx cols /\ 0 <= balIdx cols /\
   0 <= timeIdx cols /\ 0 <= typeIdx cols /\
   -1 <= swapIdx cols /\ -1 <= commIdx cols)%Z.
Proof.
  unfold detect_columns.
  destruct (find _ rows) as [h |]; simpl; [| lia].
  repeat split; apply override_lower; try lia; apply findIndex_range.
Qed.

Lemma detect_columns_no_header toLowerCase rows :
  (forall row, In row rows -> is_header toLowerCase row = false) ->
  detect_columns toLowerCase rows = default_columns.
Proof.
  intros H; unfold detect_columns.
  destruct (find _ rows) as [h |] eqn:E; [| reflexivity].
  apply find_some in E; destruct E as [Hin Hh].
  unfold is_header in H; rewrite (H h Hin) in Hh; discriminate.
Qed.

Lemma item_in_range (A : Type) (l : list A) i :
  (0 <= i < Z.of_nat (List.length l))%Z -> exists x, item l i = Some x.
Proof.
  intros H; unfold item.
  destruct (Z.ltb_spec i 0); [lia |].
  destruct (nth_error l (Z.to_nat i)) as [x |] eqn:E; [eauto |].
  apply nth_error_None in E; lia.
Qed.

Lemma textContent_at_in_range c i :
  (0 <= i < Z.of_nat (List.length c))%Z -> exists t, textContent_at c i = Normal t.
Proof.
  intros H; unfold textContent_at.
  destruct (item_in_range _ c i H) as [x ->]; eauto.
Qed.

(** A row whose guard covers every column it is read at does not throw. *)
Lemma process_row_returns toLowerCase Date_parse cols row :
  (0 <= volIdx cols /\ 0 <= profitIdx cols /\ 0 <= balIdx cols /\
   0 <= timeIdx cols /\ 0 <= typeIdx cols /\
   -1 <= swapIdx cols /\ -1 <= commIdx cols)%Z ->
  columns_guarded cols ->
  exists d, process_row toLowerCase Date_parse cols row = Normal d.
Proof.
  intros (Hv & Hp & Hb & Ht & Hty & Hs & Hc) (Gt & Gs & Gc).
  unfold process_row.
  destruct (Z.ltb_spec (max_index cols) (Z.of_nat (List.length (tr_td row)))) as [Hlen | Hlen];
    [| eauto].
  assert (Hmax : (volIdx cols <= max_index cols /\ profitIdx cols <= max_index cols /\
                  balIdx cols <= max_index cols /\ typeIdx cols <= max_index cols)%Z)
    by (unfold max_index; lia).
  destruct Hmax as (Mv & Mp & Mb & Mty).
  destruct (textContent_at_in_range (tr_td row) (timeIdx cols)) as [t ->]; [lia |]; simpl.
  destruct (trim t) as [| c0 r0] eqn:Et; [eauto |].
  destruct (matches_date_prefix (c0 :: r0)); [| eauto].
  destruct (textContent_at_in_range (tr_td row) (volIdx cols)) as [vt ->]; [lia |]; simpl.
  destruct (textContent_at_in_range (tr_td row) (profitIdx cols)) as [pt ->]; [lia |]; simpl.
  destruct (textContent_at_in_range (tr_td row) (balIdx cols)) as [bt ->]; [lia |]; simpl.
  destruct (textContent_at_in_range (tr_td row) (typeIdx cols)) as [tt ->]; [lia |]; simpl.
  destruct (Z.eqb_spec (swapIdx cols) (-1)); simpl;
    [| destruct (textContent_at_in_range (tr_td row) (swapIdx cols)) as [st ->]; [lia |]; simpl];
    (destruct (Z.eqb_spec (commIdx cols) (-1)); simpl;
     [| destruct (textContent_at_in_range (tr_td row) (commIdx cols)) as [ct ->]; [lia |]; simpl];
     eauto).
Qed.

Lemma collect_deals_returns toLowerCase Date_parse cols rows deals :
  (forall row, exists d, process_row toLowerCase Date_parse cols row = Normal d) ->
  exists out, collect_deals toLowerCase Date_parse cols rows deals = Normal out.
Proof.
  intros H; revert deals; induction rows as [| row rest IH]; intros deals; simpl; [eauto |].
  destruct (H row) as [d ->]; simpl; apply IH.
Qed.

Lemma processData_returns toLowerCase Date_parse doc :
  columns_guarded (detect_columns toLowerCase (doc_tr doc)) ->
  exists r, processData toLowerCase Date_parse doc = Normal r.
Proof.
  intros G; unfold processData.
  destruct (collect_deals_returns toLowerCase Date_parse
              (detect_columns toLowerCase (doc_tr doc)) (doc_tr doc) []) as [out ->].
  - intros row; apply process_row_returns; [apply detect_columns_lower | exact G].
  - simpl; eauto.
Qed.

End ReturnFacts.

(** X12. [processData] returns, for every document, whenever the time, swap
    and commission columns the header resolves lie within the columns the
    row guard checks; in particular it returns for every document without a
    header row, where the default columns are used. *)
Theorem X12_parser_returns_when_columns_guarded :
  forall toLowerCase Date_parse (doc : Document),
    (columns_guarded (detect_columns toLowerCase (doc_tr doc)) ->
     exists r, processData toLowerCase Date_parse doc = Normal r) /\
    ((forall row, In row (doc_tr doc) -> is_header toLowerCase row = false) ->
     exists r, processData toLowerCase Date_parse doc = Normal r).
Proof.
  intros toLowerCase Date_parse doc; split.
  - apply processData_returns.
  - intros H; apply processData_returns.
    rewrite (detect_columns_no_header toLowerCase (doc_tr doc) H).
    unfold columns_guarded, max_index, default_columns; simpl; lia.
Qed.

Lemma X12_parser_returns_when_columns_guarded_witness :
  exists r, processData toLowerCase_ascii Date_parse_utc fixed_lot_report = Normal r.
Proof.
  destruct (X12_parser_returns_when_columns_guarded toLowerCase_ascii Date_parse_utc
              fixed_lot_report) as [H _].
  apply H.
  unfold columns_guarded; split; [| split]; apply Z.leb_le; vm_compute; reflexivity.
Defined.

(* ===================================================================== *)
(** * The events the parser returns *)
(* ===================================================================== *)

Section EventFacts.
Open Scope float_scope.

Lemma SFadd_not_nan_finite x y :
  x <> S754_nan -> sf_finite y = true -> SFadd prec emax x y <> S754_nan.
Proof.
  destruct x as [sx | sx | | sx mx ex]; destruct y as [sy | sy | | sy my ey];
    simpl; try discriminate; try congruence; intros _ _.
  - destruct sx, sy; discriminate.
  - apply binary_normalize_not_nan.
Qed.

Lemma add_not_nan_finite a b :
  isNaN a = false -> isFinite b = true -> isNaN (a + b) = false.
Proof.
  rewrite isFinite_spec, !isNaN_false, add_spec. apply SFadd_not_nan_finite.
Qed.

Lemma finite_not_nan a : isFinite a = true -> isNaN a = false.
Proof.
  rewrite isFinite_spec, isNaN_spec; destruct (Prim2SF a); easy.
Qed.

Lemma cleanVal_finite t : isFinite (cleanVal t) = true.
Proof.
  unfold cleanVal; destruct t as [[| c r] |]; try reflexivity.
  destruct (isFinite (parseFloat _)) eqn:E; [exact E | reflexivity].
Qed.

Lemma sum_of_finite_not_nan a b c :
  isFinite a = true -> isFinite b = true -> isFinite c = true ->
  isNaN (a + b + c) = false.
Proof.
  intros Ha Hb Hc; apply add_not_nan_finite; [| exact Hc].
  apply add_not_nan_finite; [apply finite_not_nan, Ha | exact Hb].
Qed.

Lemma bind_normal (A B : Type) (c : completion A) (k : A -> completion B) v :
  bind c k = Normal v -> exists x, c = Normal x /\ k x = Normal v.
Proof.
  destruct c as [x | e]; simpl; [eauto | discriminate].
Qed.

(** A swap or commission cell, when its column was found, and [0]
    otherwise: a finite number either way. *)
Lemma optional_cell_finite c i v :
  (if negb (i =? -1)%Z
   then st <- textContent_at c i ;; Normal (cleanVal (Some st))
   else Normal 0) = Normal v ->
  isFinite v = true.
Proof.
  destruct (negb (i =? -1)%Z).
  - intros H; apply bind_normal in H; destruct H as (st & _ & H).
    injection H as <-; exact (cleanVal_finite (Some st)).
  - intros H; injection H as <-; reflexivity.
Qed.

(** Every deal a row contributes is a parsed event. *)
Lemma process_row_event toLowerCase Date_parse cols row d :
  process_row toLowerCase Date_parse cols row = Normal (Some d) ->
  parsed_event Date_parse d.
Proof.
  unfold process_row.
  destruct (max_index cols <? Z.of_nat (List.length (tr_td row)))%Z; [| discriminate].
  intros H; apply bind_normal in H; destruct H as (t & _ & H).
  destruct (trim t) as [| c0 r0] eqn:Et; [discriminate |].
  destruct (matches_date_prefix (c0 :: r0)) eqn:Em; [| discriminate].
  apply bind_normal in H; destruct H as (vt & _ & H).
  apply bind_normal in H; destruct H as (pt & _ & H).
  apply bind_normal in H; destruct H as (bt & _ & H).
  apply bind_normal in H; destruct H as (tt & _ & H).
  apply bind_normal in H; destruct H as (sw & Es & H).
  apply bind_normal in H; destruct H as (cm & Ec & H).
  apply optional_cell_finite in Es, Ec.
  injection H as <-.
  pose proof (cleanVal_finite (Some vt)) as Fv.
  pose proof (cleanVal_finite (Some pt)) as Fp.
  pose proof (cleanVal_finite (Some bt)) as Fb.
  unfold parsed_event;
    cbn [time date volume balance rawProfit swap commission profit
         simulatedProfit simulatedBalance].
  split; [exact Em |]. split; [reflexivity |].
  split; [exact Fv |]. split; [exact Fb |].
  split.
  - exists (cleanVal (Some pt)), sw, cm.
    split; [reflexivity |]. split; [reflexivity |]. split; [reflexivity |].
    split; [exact Fp |]. split; [exact Es |]. split; [exact Ec | reflexivity].
  - split; [| split; reflexivity].
    apply sum_of_finite_not_nan; assumption.
Qed.

Lemma collect_deals_events toLowerCase Date_parse cols rows :
  forall deals out,
    Forall (parsed_event Date_parse) deals ->
    collect_deals toLowerCase Date_parse cols rows deals = Normal out ->
    Forall (parsed_event Date_parse) out.
Proof.
  induction rows as [| row rest IH]; intros deals out Hd; simpl.
  - intros H; injection H as <-; exact Hd.
  - destruct (process_row toLowerCase Date_parse cols row) as [[d |] | e] eqn:E;
      simpl; [| apply IH; exact Hd | discriminate].
    apply IH. apply Forall_app; split; [exact Hd |].
    constructor; [| constructor]. eapply process_row_event; exact E.
Qed.

Lemma collect_deals_length toLowerCase Date_parse cols rows :
  forall deals out,
    collect_deals toLowerCase Date_parse cols rows deals = Normal out ->
    (List.length out <= List.length deals + List.length rows)%nat.
Proof.
  induction rows as [| row rest IH]; intros deals out; simpl.
  - intros H; injection H as <-; lia.
  - destruct (process_row toLowerCase Date_parse cols row) as [[d |] | e];
      simpl; [| | discriminate]; intros H; apply IH in H.
    + rewrite length_app in H; simpl in H; lia.
    + lia.
Qed.

Lemma insert_sorted_perm (A : Type) (cmp : A -> A -> option Z) x l :
  Permutation (insert_sorted cmp x l) (x :: l).
Proof.
  induction l as [| y r IH]; simpl; [reflexivity |].
  destruct (goes_after cmp x y); [| reflexivity].
  rewrite IH; apply perm_swap.
Qed.

Lemma sort_perm (A : Type) (cmp : A -> A -> option Z) l :
  Permutation (sort cmp l) l.
Proof.
  induction l as [| x r IH]; simpl; [reflexivity |].
  unfold sort in IH; rewrite insert_sorted_perm, IH; reflexivity.
Qed.

Lemma processData_events toLowerCase Date_parse doc r :
  processData toLowerCase Date_parse doc = Normal r ->
  Forall (parsed_event Date_parse) (data r).
Proof.
  intros H.
  destruct (processData_result toLowerCase Date_parse doc r H) as (deals & Hc & Hd & _).
  rewrite Hd.
  apply (Permutation_Forall (Permutation_sym (sort_perm _ compare_dates deals))).
  eapply collect_deals_events; [constructor | exact Hc].
Qed.

End EventFacts.

(** X13. Every event [processData] returns was built from a row whose time
    text has the date pattern: its date is what the host reads in that text
    with the dots replaced, its volume, balance, raw profit, swap and
    commission are finite numbers and all present, its profit is their sum
    raw + swap + commission and is never NaN, and it carries no simulated
    field. *)
Theorem X13_returned_events_are_parsed_events :
  forall toLowerCase Date_parse (doc : Document) (r : ParsedResult),
    processData toLowerCase Date_parse doc = Normal r ->
    Forall (parsed_event Date_parse) (data r).
Proof.
  intros toLowerCase Date_parse doc r; apply processData_events.
Qed.

Lemma X13_returned_events_are_parsed_events_witness :
  Forall (parsed_event Date_parse_utc)
         (data (returned (processData toLowerCase_ascii Date_parse_utc fixed_lot_report))).
Proof.
  apply (X13_returned_events_are_parsed_events toLowerCase_ascii Date_parse_utc
           fixed_lot_report).
  vm_compute; reflexivity.
Defined.

(** X14. The events [processData] returns are the deals its row loop
    collected, reordered: sorting neither drops nor duplicates an event; and
    there are no more events than table rows in the document. *)
Theorem X14_returned_events_are_the_collected_deals :
  forall toLowerCase Date_parse (doc : Document) (r : ParsedResult),
    processData toLowerCase Date_parse doc = Normal r ->
    exists deals,
      collect_deals toLowerCase Date_parse (detect_columns toLowerCase (doc_tr doc))
                    (doc_tr doc) [] = Normal deals /\
      Permutation deals (data r) /\
      (List.length (data r) <= List.length (doc_tr doc))%nat.
Proof.
  intros toLowerCase Date_parse doc r H.
  destruct (processData_result toLowerCase Date_parse doc r H) as (deals & Hc & Hd & _).
  exists deals; split; [exact Hc |].
  assert (P : Permutation deals (data r))
    by (rewrite Hd; apply Permutation_sym, sort_perm).
  split; [exact P |].
  rewrite <- (Permutation_length P).
  apply collect_deals_length in Hc; simpl in Hc; exact Hc.
Qed.

Lemma X14_returned_events_are_the_collected_deals_witness :
  exists deals,
    collect_deals toLowerCase_ascii Date_parse_utc
                  (detect_columns toLowerCase_ascii (doc_tr fixed_lot_report))
                  (doc_tr fixed_lot_report) [] = Normal deals /\
    Permutation deals
      (data (returned (processData toLowerCase_ascii Date_parse_utc fixed_lot_report))) /\
    (List.length
       (data (returned (processData toLowerCase_ascii Date_parse_utc fixed_lot_report)))
     <= List.length (doc_tr fixed_lot_report))%nat.
Proof.
  apply (X14_returned_events_are_the_collected_deals toLowerCase_ascii Date_parse_utc
           fixed_lot_report).
  vm_compute; reflexivity.
Defined.

(* ===================================================================== *)
(** * The deposit, the trade count and the lot size of a report *)
(* ===================================================================== *)

Section DepositFacts.
Open Scope float_scope.

Lemma truthy_not_nan x : truthy x = true -> isNaN x = false.
Proof. intros H; apply truthy_spec in H; apply H. Qed.

Lemma or_else_zero_not_nan x : isNaN (or_else x 0) = false.
Proof.
  unfold or_else; destruct (truthy x) eqn:E; [apply truthy_not_nan, E | reflexivity].
Qed.

Lemma processData_deposit toLowerCase Date_parse doc r :
  processData toLowerCase Date_parse doc = Normal r ->
  initialDeposit r =
  or_else (parseFloat
             (or_string (option_map remove_ws
                           (item (doc_td doc)
                                 (findIndex (fun td => includes (str "Initial Deposit:") td)
                                            (doc_td doc) + 1)))
                        (str "0"))) 0 /\
  totalTrades (reportMeta r) =
  or_else (parseInt (or_string (getVal (doc_td doc) (str "Total Trades:")) (str "0"))) 0.
Proof.
  unfold processData.
  destruct (collect_deals toLowerCase Date_parse
              (detect_columns toLowerCase (doc_tr doc)) (doc_tr doc) []) as [deals | e];
    simpl; [| discriminate].
  intros H; injection H as <-; split; reflexivity.
Qed.


Lemma isFixedLot_nil : isFixedLot [] = false.
Proof. reflexivity. Qed.






End DepositFacts.

(** X15. The initial deposit and the trade count of a report are numbers,
    never NaN, whatever the cells of the document hold: [parseFloat(...) ||
    0] and [parseInt(...) || 0] replace a text that is no number by 0. *)
Theorem X15_deposit_and_trade_count_never_nan :
  forall toLowerCase Date_parse (doc : Document) (r : ParsedResult),
    processData toLowerCase Date_parse doc = Normal r ->
    isNaN (initialDeposit r) = false /\ isNaN (totalTrades (reportMeta r)) = false.
Proof.
  intros toLowerCase Date_parse doc r H.
  destruct (processData_deposit toLowerCase Date_parse doc r H) as [-> ->].
  split; apply or_else_zero_not_nan.
Qed.

Lemma X15_deposit_and_trade_count_never_nan_witness :
  isNaN (initialDeposit
           (returned (processData toLowerCase_ascii Date_parse_utc fixed_lot_report)))
  = false /\
  isNaN (totalTrades (reportMeta
           (returned (processData toLowerCase_ascii Date_parse_utc fixed_lot_report))))
  = false.
Proof.
  apply (X15_deposit_and_trade_count_never_nan toLowerCase_ascii Date_parse_utc
           fixed_lot_report).
  vm_compute; reflexivity.
Defined.

(** X16. When no cell of the document contains the text "Initial Deposit:",
    [findIndex] yields -1 and the deposit is read in [cells[0]], the first
    cell of the document (0 when there is no cell at all or its text is no
    number). *)
Theorem X16_deposit_without_label_reads_first_cell :
  forall toLowerCase Date_parse (doc : Document) (r : ParsedResult),
    (forall c, In c (doc_td doc) -> includes (str "Initial Deposit:") c = false) ->
    processData toLowerCase Date_parse doc = Normal r ->
    initialDeposit r =
    or_else (parseFloat (or_string (option_map remove_ws (hd_error (doc_td doc)))
                                   (str "0"))) 0%float.
Proof.
  intros toLowerCase Date_parse doc r Hno H.
  destruct (processData_deposit toLowerCase Date_parse doc r H) as [-> _].
  rewrite (findIndex_none _ (fun td => includes (str "Initial Deposit:") td)
             (doc_td doc) Hno).
  destruct (doc_td doc); reflexivity.
Qed.

Lemma X16_deposit_without_label_reads_first_cell_witness :
  initialDeposit
    (returned (processData toLowerCase_ascii Date_parse_utc unlabelled_report))
  = or_else (parseFloat (or_string (option_map remove_ws
                                      (hd_error (doc_td unlabelled_report)))
                                   (str "0"))) 0%float.
Proof.
  apply (X16_deposit_without_label_reads_first_cell toLowerCase_ascii Date_parse_utc
           unlabelled_report).
  - intros c Hc; vm_compute in Hc.
    repeat (destruct Hc as [<- | Hc]; [vm_compute; reflexivity |]).
    destruct Hc.
  - vm_compute; reflexivity.
Defined.



(* ===================================================================== *)
(** * The stored lot size, the comparison and the weekly rate *)
(* ===================================================================== *)

Section ViewFacts.
Open Scope float_scope.

Lemma le0b_spec x : (x <=? 0) = sf_nonpos (Prim2SF x).
Proof.
  rewrite leb_spec, Prim2SF_zero; destruct (Prim2SF x) as [s | [] | | [] m e]; reflexivity.
Qed.

Lemma signed_nonpos x : signed_as true x -> sf_nonpos x = true.
Proof. destruct x as [s | s | | s m e]; simpl; intros H; subst; easy. Qed.

(** The sign of a quotient by a positive finite value is the sign of the
    dividend. *)
Lemma SFdiv_positive_signed s x y :
  signed_as s x -> sf_positive y = true -> sf_is_zero x = false ->
  signed_as s (SFdiv prec emax x y).
Proof.
  destruct x as [sx | sx | | sx mx ex]; destruct y as [sy | sy | | [] my ey];
    simpl; try discriminate; try contradiction; intros Hs _ _; subst.
  - destruct s; reflexivity.
  - pose proof (SFdiv_core_nonneg prec emax mx ex my ey) as Hq.
    destruct (SFdiv_core_binary prec emax (Z.pos mx) ex (Z.pos my) ey) as [[q e'] l].
    simpl in Hq.
    rewrite xorb_false_r; apply binary_round_aux_signed; exact Hq.
Qed.

Lemma SFdiv_positive_zero x y :
  sf_is_zero x = true -> sf_positive y = true ->
  sf_is_zero (SFdiv prec emax x y) = true.
Proof.
  destruct x as [sx | sx | | sx mx ex]; destruct y as [sy | sy | | [] my ey];
    simpl; try discriminate; reflexivity.
Qed.

Lemma SFmul_positive_signed s x y :
  signed_as s x -> sf_positive y = true -> sf_is_zero x = false ->
  signed_as s (SFmul prec emax x y).
Proof.
  destruct x as [sx | sx | | sx mx ex]; destruct y as [sy | sy | | [] my ey];
    simpl; try discriminate; try contradiction; intros Hs _ _; subst.
  - destruct s; reflexivity.
  - rewrite xorb_false_r; apply binary_round_aux_signed; lia.
Qed.

Lemma SFmul_positive_zero x y :
  sf_is_zero x = true -> sf_positive y = true ->
  sf_is_zero (SFmul prec emax x y) = true.
Proof.
  destruct x as [sx | sx | | sx mx ex]; destruct y as [sy | sy | | [] my ey];
    simpl; try discriminate; reflexivity.
Qed.

Lemma nonneg_cases x :
  sf_nonneg x = true -> sf_is_zero x = true \/ (sf_is_zero x = false /\ signed_as false x).
Proof. destruct x as [s | [] | | [] m e]; simpl; try discriminate; auto. Qed.

Lemma nonpos_cases x :
  sf_nonpos x = true -> sf_is_zero x = true \/ (sf_is_zero x = false /\ signed_as true x).
Proof. destruct x as [s | [] | | [] m e]; simpl; try discriminate; auto. Qed.

Lemma zero_nonneg x : sf_is_zero x = true -> sf_nonneg x = true.
Proof. destruct x; simpl; try discriminate; reflexivity. Qed.

Lemma zero_nonpos x : sf_is_zero x = true -> sf_nonpos x = true.
Proof. destruct x; simpl; try discriminate; reflexivity. Qed.

Lemma abs_positive x :
  sf_finite x = true -> sf_is_zero x = false -> sf_positive (SFabs x) = true.
Proof. destruct x as [s | s | | s m e]; simpl; try discriminate; reflexivity. Qed.

Lemma Prim2SF_100 : sf_positive (Prim2SF 100) = true.
Proof. vm_compute; reflexivity. Qed.

(** [a / |b| * 100] has the sign of [a], for a finite [b] that is not 0. *)
Lemma percent_nonneg a b :
  isFinite b = true -> (b =? 0) = false -> (0 <=? a) = true ->
  (0 <=? a / Math_abs b * 100) = true.
Proof.
  unfold Math_abs.
  rewrite isFinite_spec, eqb0_spec, !leb0_spec, mul_spec, div_spec, abs_spec.
  intros Hf Hz Ha.
  assert (Hz' : sf_is_zero (Prim2SF b) = false)
    by (destruct (Prim2SF b); simpl in *; congruence).
  pose proof (abs_positive _ Hf Hz') as Hp.
  destruct (nonneg_cases _ Ha) as [Z | [NZ S]].
  - apply zero_nonneg, SFmul_positive_zero; [| exact Prim2SF_100].
    apply SFdiv_positive_zero; assumption.
  - pose proof (SFdiv_positive_signed false _ _ S Hp NZ) as Sd.
    destruct (sf_is_zero (SFdiv prec emax (Prim2SF a) (SFabs (Prim2SF b)))) eqn:Zd.
    + apply zero_nonneg, SFmul_positive_zero; [exact Zd | exact Prim2SF_100].
    + apply signed_nonneg, SFmul_positive_signed; [exact Sd | exact Prim2SF_100 | exact Zd].
Qed.

Lemma percent_nonpos a b :
  isFinite b = true -> (b =? 0) = false -> (a <=? 0) = true ->
  (a / Math_abs b * 100 <=? 0) = true.
Proof.
  unfold Math_abs.
  rewrite isFinite_spec, eqb0_spec, !le0b_spec, mul_spec, div_spec, abs_spec.
  intros Hf Hz Ha.
  assert (Hz' : sf_is_zero (Prim2SF b) = false)
    by (destruct (Prim2SF b); simpl in *; congruence).
  pose proof (abs_positive _ Hf Hz') as Hp.
  destruct (nonpos_cases _ Ha) as [Z | [NZ S]].
  - apply zero_nonpos, SFmul_positive_zero; [| exact Prim2SF_100].
    apply SFdiv_positive_zero; assumption.
  - pose proof (SFdiv_positive_signed true _ _ S Hp NZ) as Sd.
    destruct (sf_is_zero (SFdiv prec emax (Prim2SF a) (SFabs (Prim2SF b)))) eqn:Zd.
    + apply zero_nonpos, SFmul_positive_zero; [exact Zd | exact Prim2SF_100].
    + apply signed_nonpos, SFmul_positive_signed; [exact Sd | exact Prim2SF_100 | exact Zd].
Qed.

(** [NaN] is absorbing. *)
Lemma is_nan_eq x : isNaN x = true -> x = nan.
Proof.
  rewrite isNaN_spec; intros H; apply Prim2SF_inj.
  destruct (Prim2SF x); try discriminate; reflexivity.
Qed.

Lemma sub_nan_r a : a - nan = nan.
Proof.
  apply Prim2SF_inj; rewrite sub_spec.
  change (Prim2SF nan) with S754_nan; destruct (Prim2SF a) as [[] | [] | | [] m e]; reflexivity.
Qed.

Lemma sub_nan_l a : nan - a = nan.
Proof.
  apply Prim2SF_inj; rewrite sub_spec.
  change (Prim2SF nan) with S754_nan; destruct (Prim2SF a) as [[] | [] | | [] m e]; reflexivity.
Qed.

Lemma div_nan_r a : a / nan = nan.
Proof.
  apply Prim2SF_inj; rewrite div_spec.
  change (Prim2SF nan) with S754_nan; destruct (Prim2SF a) as [[] | [] | | [] m e]; reflexivity.
Qed.

Lemma div_nan_l a : nan / a = nan.
Proof.
  apply Prim2SF_inj; rewrite div_spec.
  change (Prim2SF nan) with S754_nan; destruct (Prim2SF a) as [[] | [] | | [] m e]; reflexivity.
Qed.

Lemma nan_eqb_zero : (nan =? 0) = false.
Proof. reflexivity. Qed.

(** The difference of a finite time value with itself is a zero. *)
Lemma SFsub_diag x :
  sf_finite x = true -> sf_is_zero (SFsub prec emax x x) = true.
Proof.
  destruct x as [[] | s | | s m e]; simpl; try discriminate; try reflexivity; intros _.
  rewrite Z.min_id, Z.sub_diag; reflexivity.
Qed.

Lemma zero_weeks x :
  sf_is_zero (Prim2SF x) = true -> Math_max 1 (x / 604800000) = 1.
Proof.
  intros H.
  assert (E : x = 0 \/ x = (-0)).
  { destruct (Prim2SF x) as [[] | | |] eqn:P; try discriminate.
    - right; apply Prim2SF_inj; rewrite P; reflexivity.
    - left; apply Prim2SF_inj; rewrite P; reflexivity. }
  destruct E as [-> | ->]; vm_compute; reflexivity.
Qed.

End ViewFacts.

(** X18. The stored lot size is never NaN: the initial store holds 0, and
    [handleLotSizeChange], the initialising effect and [clearSimulation]
    keep a lot size that is not NaN so; a text [parseFloat] cannot read
    leaves the store as it is. The lot size the transform uses,
    [storedLotSize || 0.1], is moreover never 0. *)
Theorem X18_stored_lot_size_never_nan :
  forall (data : list DataPoint) (value : jsstring) (state : SimulationState),
    isNaN (lotSize state) = false ->
    isNaN (lotSize (handleLotSizeChange value state)) = false /\
    isNaN (lotSize (initialise_lot data state)) = false /\
    isNaN (lotSize (clearSimulation state)) = false /\
    (isNaN (parseFloat value) = true -> handleLotSizeChange value state = state) /\
    isNaN (currentLotSize (lotSize state)) = false /\
    (currentLotSize (lotSize state) =? 0)%float = false.
Proof.
  intros data value state H.
  split; [| split; [| split; [| split]]].
  - unfold handleLotSizeChange.
    destruct (isNaN (parseFloat value)) eqn:E; simpl; [exact H | exact E].
  - unfold initialise_lot.
    destruct (isFixedLot data) eqn:Ef; simpl; [| exact H].
    destruct (0 <? originalLotSize data)%float eqn:Ep; simpl; [| exact H].
    destruct (lotSize state =? 0)%float; simpl; [| exact H].
    apply positive_not_nan, Ep.
  - reflexivity.
  - unfold handleLotSizeChange; intros ->; reflexivity.
  - apply truthy_spec, currentLotSize_truthy.
Qed.

Lemma X18_stored_lot_size_never_nan_witness :
  isNaN (lotSize (handleLotSizeChange (str "0.25") initialState)) = false /\
  isNaN (lotSize (initialise_lot (data fixed_lot_result) initialState)) = false /\
  isNaN (lotSize (clearSimulation initialState)) = false /\
  (isNaN (parseFloat (str "0.25")) = true ->
   handleLotSizeChange (str "0.25") initialState = initialState) /\
  isNaN (currentLotSize (lotSize initialState)) = false /\
  (currentLotSize (lotSize initialState) =? 0)%float = false.
Proof.
  apply (X18_stored_lot_size_never_nan (data fixed_lot_result) (str "0.25") initialState).
  reflexivity.
Defined.

(** X19. The comparison of the simulated with the original net profit never
    divides by zero: an original profit that reads as 0 (also a missing
    text) gives the percentage 0. For a finite original profit that is not
    0 the percentage has the sign of the difference, whether the original
    was a gain or a loss: it is >= 0 when the simulated profit is not below
    the original, and <= 0 when it is not above. An original text that is
    no number is not guarded: difference and percentage are then NaN. *)
Theorem X19_comparison_percentage :
  forall (originalMeta simMeta : ReportMeta),
    let c := comparison originalMeta simMeta in
    ((original c =? 0)%float = true -> diffPercent c = 0%float) /\
    (isFinite (original c) = true -> (original c =? 0)%float = false ->
       ((0 <=? diff c)%float = true -> (0 <=? diffPercent c)%float = true) /\
       ((diff c <=? 0)%float = true -> (diffPercent c <=? 0)%float = true)) /\
    (isNaN (original c) = true ->
       isNaN (diff c) = true /\ isNaN (diffPercent c) = true).
Proof.
  intros originalMeta simMeta; unfold comparison; simpl.
  set (o := parseFloat (remove_all 44 (remove_ws (or_string (totalNetProfit originalMeta)
                                                           (str "0"))))).
  set (s := parseFloat (or_string (totalNetProfit simMeta) (str "0"))).
  split; [| split].
  - intros ->; reflexivity.
  - intros Hf Hz; rewrite Hz; simpl; split; intros Hd.
    + apply percent_nonneg; assumption.
    + apply percent_nonpos; assumption.
  - intros Hn; apply is_nan_eq in Hn; rewrite Hn, sub_nan_r, nan_eqb_zero.
    split; vm_compute; reflexivity.
Qed.

Lemma X19_comparison_percentage_witness :
  let c := comparison (meta_of_profit (Some "-1 250.00"%string))
                      (meta_of_profit (Some "-500.00"%string)) in
  ((original c =? 0)%float = true -> diffPercent c = 0%float) /\
  (isFinite (original c) = true -> (original c =? 0)%float = false ->
     ((0 <=? diff c)%float = true -> (0 <=? diffPercent c)%float = true) /\
     ((diff c <=? 0)%float = true -> (diffPercent c <=? 0)%float = true)) /\
  (isNaN (original c) = true ->
     isNaN (diff c) = true /\ isNaN (diffPercent c) = true) /\
  (0 <=? diffPercent c)%float = true.
Proof.
  pose proof (X19_comparison_percentage (meta_of_profit (Some "-1 250.00"%string))
                                        (meta_of_profit (Some "-500.00"%string)))
    as (H0 & Hs & Hn).
  split; [exact H0 |]. split; [exact Hs |]. split; [exact Hn |].
  apply Hs; vm_compute; reflexivity.
Defined.

(** X20. The weekly rate divides the trade count by a number of weeks that
    is never below 1. When the first or the last event has an invalid date
    the rate is the text "NaN"; when both carry the same finite time value,
    as with a single event, the number of weeks is 1. *)
Theorem X20_weekly_rate :
  forall (first : DataPoint) (rest : list DataPoint) (total : number),
    let data := first :: rest in
    let last := List.last data first in
    (diffWeeks first last <? 1)%float = false /\
    (date first = None \/ date last = None ->
       avgPerWeek data total = inr (str "NaN")) /\
    (forall t, date first = Some t -> date last = Some t -> isFinite (of_Z t) = true ->
       diffWeeks first last = 1%float /\
       avgPerWeek data total = inr (toFixed (total / 1)%float 2)).
Proof.
  intros first rest total data last.
  split; [apply Math_max_lower |]. split.
  - intros H.
    assert (E : diffWeeks first last = nan).
    { unfold diffWeeks, getTime.
      destruct H as [-> | ->];
        [rewrite sub_nan_r | rewrite sub_nan_l]; vm_compute; reflexivity. }
    unfold avgPerWeek, data; fold data; fold last.
    rewrite E, div_nan_r; vm_compute; reflexivity.
  - intros t Hf Hl Ht.
    assert (E : diffWeeks first last = 1%float).
    { unfold diffWeeks, getTime; rewrite Hf, Hl.
      apply zero_weeks; rewrite sub_spec; apply SFsub_diag.
      rewrite <- isFinite_spec; exact Ht. }
    split; [exact E |].
    unfold avgPerWeek, data; fold data; fold last.
    rewrite E; reflexivity.
Qed.

Lemma X20_weekly_rate_witness :
  avgPerWeek [dated_event None; dated_event (Some 1704103200000%Z)] 12%float
  = inr (str "NaN") /\
  diffWeeks (dated_event (Some 1704103200000%Z)) (dated_event (Some 1704103200000%Z))
  = 1%float.
Proof.
  split.
  - destruct (X20_weekly_rate (dated_event None) [dated_event (Some 1704103200000%Z)]
                              12%float) as (_ & H & _).
    apply H; left; reflexivity.
  - destruct (X20_weekly_rate (dated_event (Some 1704103200000%Z)) [] 12%float)
      as (_ & _ & H).
    apply (H 1704103200000%Z); vm_compute; reflexivity.
Defined.
